(** * Spray decision and control: a shallow embedding of the backend

    The development follows the three Python modules of the backend:
    [spray_logic.py] (duration bands and the moisture window),
    [model.py] (the recommendation record built by
    [DiseaseSegmentationModel]) and [app.py] (the Flask handlers that own
    the two module-level dictionaries [latest_sensor_data] and
    [spray_status]).

    Python values are modelled as the handlers meet them: a JSON body is a
    [pyval]; a number is an exact rational, an infinity or NaN, compared the
    way Python compares an [int] with a [float]; a dictionary is a finite map
    with string keys; a raised exception is the [Raise] branch of [result]. *)

From Stdlib Require Import ZArith QArith Ascii String Bool Lia Lqa.
From stdpp Require Import base option gmap strings.

Local Open Scope string_scope.

(** ** Python numbers *)

(** Every [int] and every finite [float] is a rational number, and Python
    compares an [int] with a [float] exactly, so the finite numbers are [Q];
    the three special floats are kept apart. *)
Inductive pynum : Type :=
  | Fin (q : Q)
  | PInf
  | NInf
  | NaN.

Definition num_of_Z (z : Z) : pynum := Fin (inject_Z z).

(** [a <= b]: false as soon as one side is NaN. *)
Definition num_le (a b : pynum) : bool :=
  match a, b with
  | NaN, _ | _, NaN => false
  | NInf, _ => true
  | _, PInf => true
  | PInf, _ => false
  | _, NInf => false
  | Fin x, Fin y => Qle_bool x y
  end.

(** [a < b]: false as soon as one side is NaN. *)
Definition num_lt (a b : pynum) : bool :=
  match a, b with
  | NaN, _ | _, NaN => false
  | PInf, _ => false
  | _, NInf => false
  | NInf, _ => true
  | _, PInf => true
  | Fin x, Fin y => negb (Qle_bool y x)
  end.

(** [a > b] is [b < a]. *)
Definition num_gt (a b : pynum) : bool := num_lt b a.

(** The binary64 numbers that the literals [39.9] and [70.1] denote. *)
Definition float_39_9 : Q := 5615425785377587 # 140737488355328.
Definition float_70_1 : Q := 2466424483427123 # 35184372088832.

(** ** Python values and exceptions *)

#[warnings="-register-all"] Inductive pyval : Type :=
  | VNone
  | VBool (b : bool)
  | VNum (x : pynum)
  | VStr (s : string)
  | VList (l : list pyval)
  | VDict (d : gmap string pyval).

Definition VInt (z : Z) : pyval := VNum (num_of_Z z).

Inductive pyexc : Type :=
  | TypeError
  | KeyError (k : string)
  | AttributeError
  | ValueError.

Inductive result (A : Type) : Type :=
  | Ok (a : A)
  | Raise (e : pyexc).
Arguments Ok {A} a.
Arguments Raise {A} e.

Definition bind {A B : Type} (r : result A) (k : A -> result B) : result B :=
  match r with
  | Ok a => k a
  | Raise e => Raise e
  end.

Notation "'let*' x ':=' r 'in' k" := (bind r (fun x => k))
  (at level 10, x name, r at level 100, k at level 200).

(** The number a value stands for in an ordering comparison with an [int];
    [bool] is a subclass of [int], every other type has none. *)
Definition as_number (v : pyval) : option pynum :=
  match v with
  | VNum x => Some x
  | VBool true => Some (num_of_Z 1)
  | VBool false => Some (num_of_Z 0)
  | _ => None
  end.

(** [lo <= v <= hi] for integer literals [lo] and [hi]: [v] is evaluated
    once, the second comparison only runs when the first holds, and a value
    that cannot be ordered against an [int] raises [TypeError]. *)
Definition chained_le (lo : Z) (v : pyval) (hi : Z) : result bool :=
  match as_number v with
  | Some x =>
      if num_le (num_of_Z lo) x then Ok (num_le x (num_of_Z hi)) else Ok false
  | None => Raise TypeError
  end.

(** ** spray_logic.py *)

Module spray_logic.

Definition calculate_spray_duration (infection_level : pynum) : Z :=
  if num_le infection_level (num_of_Z 0) then 0
  else if num_lt infection_level (num_of_Z 25) then 3
  else if num_lt infection_level (num_of_Z 50) then 5
  else if num_lt infection_level (num_of_Z 75) then 8
  else 10.

Definition SOIL_MOISTURE_MIN : Z := 40.
Definition SOIL_MOISTURE_MAX : Z := 70.

(** The returned dictionary; [reason] is an f-string over the arguments. *)
Record spray_decision : Type := {
  spray_allowed : bool;
  duration : Z;
  reason : string
}.

Section Formatting.
(** How an f-string renders a value. *)
Variable py_format : pyval -> string.

Definition calculate_spray_with_safety
    (infection_level : pynum) (soil_moisture : pyval)
    : result spray_decision :=
  let* moisture_safe :=
    chained_le SOIL_MOISTURE_MIN soil_moisture SOIL_MOISTURE_MAX in
  if negb moisture_safe then
    Ok {| spray_allowed := false;
          duration := 0;
          reason := "Soil moisture " ++ py_format soil_moisture
                    ++ "% outside safe range ("
                    ++ py_format (VInt SOIL_MOISTURE_MIN) ++ "-"
                    ++ py_format (VInt SOIL_MOISTURE_MAX) ++ "%)" |}
  else
    let duration := calculate_spray_duration infection_level in
    if (duration =? 0)%Z then
      Ok {| spray_allowed := false;
            duration := 0;
            reason := "No infection detected - no spray needed" |}
    else
      Ok {| spray_allowed := true;
            duration := duration;
            reason := "Infection level " ++ py_format (VNum infection_level)
                      ++ "% - spraying for " ++ py_format (VInt duration)
                      ++ " seconds" |}.
End Formatting.

(** One value of the [recommendations] table. *)
Record treatment : Type := {
  action : string;
  message : string;
  frequency : string
}.

(** The [recommendations] table of [get_spray_recommendation], keyed by the
    duration; [disease_name] is a string, which an f-string renders as it
    is. *)
Definition recommendations (disease_name : string) : gmap Z treatment :=
  list_to_map [
    (0%Z, {| action := "No action needed";
             message := "Plant appears healthy. Continue regular monitoring.";
             frequency := "Weekly inspection" |});
    (3%Z, {| action := "Light treatment";
             message := "Low-level " ++ disease_name
                        ++ " detected. Apply preventive treatment.";
             frequency := "Single application" |});
    (5%Z, {| action := "Standard treatment";
             message := "Moderate " ++ disease_name
                        ++ " detected. Apply full treatment.";
             frequency := "Apply now, re-evaluate in 3 days" |});
    (8%Z, {| action := "Intensive treatment";
             message := "Severe " ++ disease_name
                        ++ " detected. Apply intensive treatment.";
             frequency := "Apply now, repeat in 2 days" |});
    (10%Z, {| action := "Maximum treatment";
              message := "Critical " ++ disease_name
                         ++ " detected! Immediate maximum treatment required.";
              frequency := "Apply immediately, repeat daily for 3 days" |})
  ].

(** The dictionary [get_spray_recommendation] returns: its own three keys
    and, spread into it, the keys of the table entry. *)
Record spray_recommendation : Type := {
  rec_duration : Z;
  rec_infection_level : pynum;
  rec_disease_name : string;
  rec_treatment : treatment
}.

(** [recommendations.get(duration, recommendations[0])]: the default is
    looked up first and raises [KeyError] when the table has no entry 0. *)
Definition get_spray_recommendation (infection_level : pynum)
    (disease_name : string) : result spray_recommendation :=
  let duration := calculate_spray_duration infection_level in
  let table := recommendations disease_name in
  let* fallback :=
    match table !! 0%Z with
    | Some entry => Ok entry
    | None => Raise (KeyError "0")
    end in
  Ok {| rec_duration := duration;
        rec_infection_level := infection_level;
        rec_disease_name := disease_name;
        rec_treatment := default fallback (table !! duration) |}.

End spray_logic.

(** ** model.py *)

Module model.

(** One entry of [DISEASE_DB]. *)
Record disease_info : Type := {
  name : string;
  pesticide : string;
  dosage : string;
  description : string
}.

Definition DISEASE_DB : gmap string disease_info :=
  list_to_map [
    ("wheat_brown_rust",
     {| name := "Wheat Brown Rust";
        pesticide := "Propiconazole 25% EC";
        dosage := "1ml per liter of water";
        description := "Fungal disease causing brown pustules on leaves" |});
    ("tomato_early_blight",
     {| name := "Tomato Early Blight";
        pesticide := "Mancozeb 75% WP";
        dosage := "2g per liter of water";
        description := "Alternaria solani causing concentric rings on leaves" |});
    ("rice_blast",
     {| name := "Rice Blast";
        pesticide := "Tricyclazole 75% WP";
        dosage := "1g per liter of water";
        description := "Pyricularia oryzae causing diamond-shaped lesions" |});
    ("potato_late_blight",
     {| name := "Potato Late Blight";
        pesticide := "Metalaxyl 8% + Mancozeb 64% WP";
        dosage := "2.5g per liter of water";
        description := "Phytophthora infestans causing dark lesions" |});
    ("healthy",
     {| name := "Healthy Plant";
        pesticide := "None required";
        dosage := "N/A";
        description := "No disease detected" |})
  ].

(** The keys of [DISEASE_DB], in the order of the source. *)
Definition DISEASE_KEYS : list string :=
  ["wheat_brown_rust"; "tomato_early_blight"; "rice_blast";
   "potato_late_blight"; "healthy"].

Definition _get_severity (infection_level : pynum) : string :=
  if num_lt infection_level (num_of_Z 10) then "Low"
  else if num_lt infection_level (num_of_Z 30) then "Moderate"
  else if num_lt infection_level (num_of_Z 50) then "High"
  else "Severe".

Definition calculate_spray_duration (infection_level : pynum) : Z :=
  if num_le infection_level (num_of_Z 0) then 0
  else if num_lt infection_level (num_of_Z 25) then 3
  else if num_lt infection_level (num_of_Z 50) then 5
  else if num_lt infection_level (num_of_Z 75) then 8
  else 10.

(** The dictionary [get_recommendation] returns; its keys 'description',
    'pesticide' and 'dosage' carry a prefix here, the plain names being the
    fields of a table entry. *)
Record recommendation : Type := {
  disease_name : string;
  rec_description : string;
  infection_level : pynum;
  severity : string;
  rec_pesticide : string;
  rec_dosage : string;
  spray_recommended : bool;
  spray_duration : Z
}.

(** [d[k]]: a missing key raises [KeyError]. *)
Definition db_item (k : string) : result disease_info :=
  match DISEASE_DB !! k with
  | Some info => Ok info
  | None => Raise (KeyError k)
  end.

(** [DISEASE_DB.get(disease_key, DISEASE_DB['healthy'])]: the default is
    evaluated before the lookup. *)
Definition get_recommendation (disease_key : string) (level : pynum)
    : result recommendation :=
  let* fallback := db_item "healthy" in
  let disease_info := default fallback (DISEASE_DB !! disease_key) in
  Ok {| disease_name := name disease_info;
        rec_description := description disease_info;
        infection_level := level;
        severity := _get_severity level;
        rec_pesticide := pesticide disease_info;
        rec_dosage := dosage disease_info;
        spray_recommended := num_gt level (num_of_Z 15);
        spray_duration := calculate_spray_duration level |}.

(** [list(self.DISEASE_DB.keys())[:-1]]: the keys in insertion order
    without the last one. *)
Definition candidate_diseases : list string := removelast DISEASE_KEYS.

(** [_classify_disease]: [choice] is the index [random.choice] draws in the
    list of candidates, [confidence] the number [random.uniform(0.75, 0.95)]
    draws; an index outside the list is no draw. *)
Definition _classify_disease (choice : nat) (confidence : pynum)
    : option (string * pynum) :=
  match candidate_diseases !! choice with
  | Some disease_key => Some (disease_key, confidence)
  | None => None
  end.

End model.

(** ** app.py *)

Module app.

(** The two module-level dictionaries. *)
Record state : Type := {
  latest_sensor_data : gmap string pyval;
  spray_status : gmap string pyval
}.

(** What a handler returns: the object given to [jsonify] and the HTTP
    status. *)
Record response : Type := {
  body : gmap string pyval;
  status : Z
}.

(** The state at import time; [boot_time] is [datetime.now().isoformat()]
    read when the module is loaded. *)
Definition initial_state (boot_time : string) : state :=
  {| latest_sensor_data :=
       list_to_map [
         ("temperature", VNum (Fin 25));
         ("humidity", VNum (Fin 60));
         ("soil_moisture", VNum (Fin 55));
         ("timestamp", VStr boot_time)
       ];
     spray_status :=
       list_to_map [
         ("is_spraying", VBool false);
         ("last_command", VNone);
         ("last_spray_time", VNone)
       ] |}.

(** [d.get(k, default)]: only a dictionary has the method, and the default
    is evaluated after the method is looked up and before the key is. *)
Definition dict_get (d : pyval) (k : string) (dflt : result pyval)
    : result pyval :=
  match d with
  | VDict m => let* x := dflt in Ok (default x (m !! k))
  | _ => Raise AttributeError
  end.

(** [d[k]] on one of the module-level dictionaries. *)
Definition dict_item (m : gmap string pyval) (k : string) : result pyval :=
  match m !! k with
  | Some v => Ok v
  | None => Raise (KeyError k)
  end.

(** [d.update(other)]: the keys of [other] win. *)
Definition dict_update (d other : gmap string pyval) : gmap string pyval :=
  other ∪ d.

(** A truth value as the handler holds it: a Python [bool], or the
    [numpy.bool_] that comparing a [numpy.float64] returns. *)
Inductive truth : Type :=
  | PyBool (b : bool)
  | NumpyBool (b : bool).

Definition truthy (t : truth) : bool :=
  match t with
  | PyBool b | NumpyBool b => b
  end.

(** [a and b]: [a] itself when it is falsy, else [b]. *)
Definition py_and (a b : truth) : truth := if truthy a then b else a.

(** What [jsonify] makes of a truth value: a [bool] is encoded, a
    [numpy.bool_] has no encoding and raises [TypeError]. *)
Definition json_truth (t : truth) : result pyval :=
  match t with
  | PyBool b => Ok (VBool b)
  | NumpyBool _ => Raise TypeError
  end.

Definition nl : string := String (Ascii.ascii_of_nat 10) EmptyString.

Definition ALLOWED_EXTENSIONS : gset string :=
  list_to_set ["png"; "jpg"; "jpeg"; "gif"; "bmp"].

(** [filename.rsplit('.', 1)[1]] when ['.' in filename]: what follows the
    last dot; [None] when the name has no dot. *)
Fixpoint after_last_dot (filename : string) : option string :=
  match filename with
  | EmptyString => None
  | String c rest =>
      match after_last_dot rest with
      | Some ext => Some ext
      | None => if Ascii.eqb c "."%char then Some rest else None
      end
  end.

(** Where the image of an analysis request comes from: a file uploaded
    under 'image' with its filename, else the form field 'image_base64',
    else nothing. *)
Inductive image_part : Type :=
  | UploadedFile (filename : string)
  | Base64Field
  | NoImage.

Section Handlers.

(** The Python built-ins the handlers call, taken as they are:
    the rendering of a value inside an f-string, [str.upper], [float] on a
    form field ([None] when it raises [ValueError]), [str] of an exception
    and [str.lower]. *)
Variable py_format : pyval -> string.
Variable str_upper : string -> string.
Variable py_float : string -> option pynum.
Variable py_str_exc : pyexc -> string.
Variable str_lower : string -> string.

(** [v.upper()]: only a string has the method. *)
Definition upper (v : pyval) : result string :=
  match v with
  | VStr s => Ok (str_upper s)
  | _ => Raise AttributeError
  end.

(** [except Exception as e: return jsonify({'error': str(e)}), 500].
    No handler below raises after it has written to a module-level
    dictionary, so the state an exception leaves is the state before the
    call. *)
Definition catch_all (st : state) (r : result (response * state))
    : response * state :=
  match r with
  | Ok out => out
  | Raise e =>
      ({| body := {[ "error" := VStr (py_str_exc e) ]}; status := 500 |}, st)
  end.

(** [analyze_image], from the point where the image has been opened
    (before that the handler returns 400 without reading any state).
    [form_soil_moisture] is the form field when present. [inference] is
    what saving the image and running the segmentation model do: they
    raise, or they hand over [disease_key], [confidence_pct]
    ([round(confidence * 100, 2)]) and [level], which
    [calculate_infection_level] returns as a [numpy.float64]; so the
    recommendation's [level > 15] is a [numpy.bool_], and the response is
    built and then given to [jsonify]. [image_path] comes from the upload
    folder and [now] from the clock. *)
Definition analyze_image (form_soil_moisture : option string)
    (inference : result unit)
    (disease_key : string) (confidence_pct : pyval) (level : pynum)
    (image_path now : string) (st : state) : response * state :=
  catch_all st (
    let* soil_moisture :=
      match form_soil_moisture with
      | Some field =>
          match py_float field with
          | Some x => Ok (VNum x)
          | None => Raise ValueError
          end
      | None =>
          Ok (default (VInt 50) (latest_sensor_data st !! "soil_moisture"))
      end in
    let* _ := inference in
    let* recommendation := model.get_recommendation disease_key level in
    let* moisture_safe := chained_le 40 soil_moisture 70 in
    let alert_message :=
      if num_gt level (num_of_Z 15) then
        "🚨 DISEASE ALERT: " ++ model.disease_name recommendation ++ nl
        ++ "Infection Level: " ++ py_format (VNum level) ++ "% ("
        ++ model.severity recommendation ++ ")" ++ nl
        ++ "Recommended Pesticide: " ++ model.rec_pesticide recommendation
        ++ nl
        ++ "Dosage: " ++ model.rec_dosage recommendation ++ nl
        ++ "Spray Duration: "
        ++ py_format (VInt (model.spray_duration recommendation))
        ++ " seconds"
        ++ (if negb moisture_safe then
              nl ++ "⚠️ WARNING: Soil moisture outside safe range (40-70%). Spraying NOT recommended."
            else
              nl ++ "✅ Spraying recommended.")
      else
        "✅ Plant appears healthy. Infection level: "
        ++ py_format (VNum level) ++ "%" in
    let* spray_recommended :=
      json_truth
        (py_and (NumpyBool (model.spray_recommended recommendation))
                (PyBool moisture_safe)) in
    Ok ({| body := list_to_map [
             ("success", VBool true);
             ("timestamp", VStr now);
             ("disease_detected", VBool (negb (String.eqb disease_key "healthy")));
             ("disease_name", VStr (model.disease_name recommendation));
             ("disease_description", VStr (model.rec_description recommendation));
             ("infection_level", VNum level);
             ("severity", VStr (model.severity recommendation));
             ("confidence", confidence_pct);
             ("pesticide", VStr (model.rec_pesticide recommendation));
             ("dosage", VStr (model.rec_dosage recommendation));
             ("spray_recommended", spray_recommended);
             ("spray_duration", VInt (model.spray_duration recommendation));
             ("spray_allowed", VBool moisture_safe);
             ("soil_moisture", soil_moisture);
             ("moisture_safe", VBool moisture_safe);
             ("alert_message", VStr alert_message);
             ("image_path", VStr image_path)
           ];
           status := 200 |}, st)).

(** [get_sensors] *)
Definition get_sensors (st : state) : response :=
  {| body := list_to_map [
       ("success", VBool true);
       ("data", VDict (latest_sensor_data st))
     ];
     status := 200 |}.

(** [update_sensors]; [data] is [request.get_json()] and [now] the clock
    reading of the call. *)
Definition update_sensors (data : pyval) (now : string) (st : state)
    : response * state :=
  catch_all st (
    let old := latest_sensor_data st in
    let* temperature :=
      dict_get data "temperature" (dict_item old "temperature") in
    let* humidity :=
      dict_get data "humidity" (dict_item old "humidity") in
    let* soil_moisture :=
      dict_get data "soil_moisture" (dict_item old "soil_moisture") in
    let new := dict_update old (list_to_map [
                 ("temperature", temperature);
                 ("humidity", humidity);
                 ("soil_moisture", soil_moisture);
                 ("timestamp", VStr now)
               ]) in
    Ok ({| body := list_to_map [
             ("success", VBool true);
             ("message", VStr "Sensor data updated");
             ("data", VDict new)
           ];
           status := 200 |},
        {| latest_sensor_data := new; spray_status := spray_status st |})).

(** [control_spray]; [data] is [request.get_json()] and [now] the clock
    reading of the call. *)
Definition control_spray (data : pyval) (now : string) (st : state)
    : response * state :=
  catch_all st (
    let* command_field := dict_get data "command" (Ok (VStr "")) in
    let* command := upper command_field in
    let* duration := dict_get data "duration" (Ok (VInt 5)) in
    let* soil_moisture :=
      dict_get data "soil_moisture"
        (Ok (default (VInt 50) (latest_sensor_data st !! "soil_moisture"))) in
    if negb (String.eqb command "START" || String.eqb command "STOP") then
      Ok ({| body := {[ "error" := VStr "Invalid command. Use START or STOP" ]};
             status := 400 |}, st)
    else
      let* moisture_safe := chained_le 40 soil_moisture 70 in
      if String.eqb command "START" then
        if negb moisture_safe then
          Ok ({| body := list_to_map [
                   ("success", VBool false);
                   ("command", VStr "REJECTED");
                   ("spray_allowed", VBool false);
                   ("reason",
                    VStr ("Soil moisture " ++ py_format soil_moisture
                          ++ "% outside safe range (40-70%). Cannot spray."));
                   ("soil_moisture", soil_moisture);
                   ("moisture_safe", VBool false)
                 ];
                 status := 403 |},
              {| latest_sensor_data := latest_sensor_data st;
                 spray_status :=
                   <["last_command" := VStr "REJECTED"]> (spray_status st) |})
        else
          Ok ({| body := list_to_map [
                   ("success", VBool true);
                   ("command", VStr "START_SPRAY");
                   ("spray_allowed", VBool true);
                   ("duration", duration);
                   ("soil_moisture", soil_moisture);
                   ("message",
                    VStr ("Spray started for " ++ py_format duration
                          ++ " seconds"))
                 ];
                 status := 200 |},
              {| latest_sensor_data := latest_sensor_data st;
                 spray_status :=
                   dict_update (spray_status st) (list_to_map [
                     ("is_spraying", VBool true);
                     ("last_command", VStr "START");
                     ("last_spray_time", VStr now);
                     ("spray_duration", duration)
                   ]) |})
      else
        Ok ({| body := list_to_map [
                 ("success", VBool true);
                 ("command", VStr "STOP_SPRAY");
                 ("spray_allowed", VBool true);
                 ("message", VStr "Spray stopped")
               ];
               status := 200 |},
            {| latest_sensor_data := latest_sensor_data st;
               spray_status :=
                 dict_update (spray_status st) (list_to_map [
                   ("is_spraying", VBool false);
                   ("last_command", VStr "STOP")
                 ]) |})).

(** [get_spray_status] *)
Definition get_spray_status (st : state) : response :=
  {| body := list_to_map [
       ("success", VBool true);
       ("spray_status", VDict (spray_status st))
     ];
     status := 200 |}.

(** [allowed_file] *)
Definition allowed_file (filename : string) : bool :=
  match after_last_dot filename with
  | Some ext => bool_decide (str_lower ext ∈ ALLOWED_EXTENSIONS)
  | None => false
  end.

(** The whole of [analyze_image]: the lines that obtain the image, then
    [analyze_image] above. [opened] is what [Image.open] does with the
    bytes it is given (for the form field, after [base64.b64decode]); an
    uploaded file with a name is truthy, so only its extension decides
    whether it is opened. *)
Definition analyze_image_request (img : image_part) (opened : result unit)
    (form_soil_moisture : option string) (inference : result unit)
    (disease_key : string) (confidence_pct : pyval) (level : pynum)
    (image_path now : string) (st : state) : response * state :=
  let no_image :=
    ({| body := {[ "error" := VStr "No image provided" ]}; status := 400 |},
     st) in
  let with_image :=
    match opened with
    | Ok _ =>
        analyze_image form_soil_moisture inference disease_key
          confidence_pct level image_path now st
    | Raise e => catch_all st (Raise e)
    end in
  match img with
  | UploadedFile filename =>
      if String.eqb filename "" then
        ({| body := {[ "error" := VStr "No file selected" ]}; status := 400 |},
         st)
      else if allowed_file filename then with_image
      else no_image
  | Base64Field => with_image
  | NoImage => no_image
  end.

End Handlers.

End app.

(** * Vocabulary of the statements *)

(** [lo <= m <= hi] as a statement about numbers: only a finite number can
    lie between two integers. *)
Definition within (lo hi : Z) (m : pynum) : Prop :=
  match m with
  | Fin q => (inject_Z lo <= q)%Q /\ (q <= inject_Z hi)%Q
  | _ => False
  end.

(** [x > b] as a statement about numbers. *)
Definition exceeds (b : Z) (x : pynum) : Prop :=
  match x with
  | Fin q => (inject_Z b < q)%Q
  | PInf => True
  | NInf | NaN => False
  end.

(** The moisture value [control_spray] checks: the field of the body when
    it has one, else the stored reading, else 50. *)
Definition resolved_moisture (d : gmap string pyval) (st : app.state)
    : pyval :=
  default (default (VInt 50) (app.latest_sensor_data st !! "soil_moisture"))
          (d !! "soil_moisture").

(** The three measurements a reading holds. *)
Definition has_reading (st : app.state) : Prop :=
  is_Some (app.latest_sensor_data st !! "temperature") /\
  is_Some (app.latest_sensor_data st !! "humidity") /\
  is_Some (app.latest_sensor_data st !! "soil_moisture").

(** The moisture value [analyze_image] checks: the form field read as a
    float when the form has one, else the stored reading, else 50. *)
Definition analysed_moisture (py_float : string -> option pynum)
    (form_soil_moisture : option string) (st : app.state) : result pyval :=
  match form_soil_moisture with
  | Some field =>
      match py_float field with
      | Some x => Ok (VNum x)
      | None => Raise ValueError
      end
  | None =>
      Ok (default (VInt 50) (app.latest_sensor_data st !! "soil_moisture"))
  end.

(** ['.' in s] *)
Fixpoint has_dot (s : string) : bool :=
  match s with
  | EmptyString => false
  | String c rest => Ascii.eqb c "."%char || has_dot rest
  end.

(** The command field [control_spray] reads: the empty string when the
    body has none. *)
Definition command_field (d : gmap string pyval) : pyval :=
  default (VStr "") (d !! "command").

(** A body [control_spray] cannot read a command from: not a JSON object,
    or an object whose command is not a string. *)
Definition unreadable_command (data : pyval) : Prop :=
  match data with
  | VDict d =>
      match command_field d with
      | VStr _ => False
      | _ => True
      end
  | _ => True
  end.

(** A spray status in good shape: [is_spraying] is a boolean, a pump
    recorded as spraying has a start time and a duration on record, and
    [last_command] is None or one of the three words the handler writes. *)
Definition status_ok (st : app.state) : Prop :=
  let status := app.spray_status st in
  (exists b : bool, status !! "is_spraying" = Some (VBool b)) /\
  (status !! "is_spraying" = Some (VBool true) ->
     (exists t : string, status !! "last_spray_time" = Some (VStr t)) /\
     is_Some (status !! "spray_duration")) /\
  (status !! "last_command" = Some VNone \/
   status !! "last_command" = Some (VStr "START") \/
   status !! "last_command" = Some (VStr "STOP") \/
   status !! "last_command" = Some (VStr "REJECTED")).

(** The requests served by a handler that may write to the state. *)
Inductive request : Type :=
  | PostSensorsUpdate (data : pyval)
  | PostControlSpray (data : pyval)
  | PostAnalyze (form_soil_moisture : option string)
      (inference : result unit) (disease_key : string)
      (confidence_pct : pyval) (level : pynum) (image_path : string).

Section Serve.

Variable py_format : pyval -> string.
Variable str_upper : string -> string.
Variable py_float : string -> option pynum.
Variable py_str_exc : pyexc -> string.

(** One request, served at clock reading [now]. *)
Definition serve (req : request) (now : string) (st : app.state)
    : app.response * app.state :=
  match req with
  | PostSensorsUpdate data => app.update_sensors py_str_exc data now st
  | PostControlSpray data =>
      app.control_spray py_format str_upper py_str_exc data now st
  | PostAnalyze form inference key conf level path =>
      app.analyze_image py_format py_float py_str_exc
        form inference key conf level path now st
  end.

(** The states the process goes through, one request after the other. *)
Inductive reachable : app.state -> Prop :=
  | reach_boot (boot_time : string) : reachable (app.initial_state boot_time)
  | reach_serve (st : app.state) (req : request) (now : string) :
      reachable st -> reachable (snd (serve req now st)).

End Serve.

(** * Closed runs *)

(** A stand-in for the built-ins, enough to run the handlers on concrete
    requests: values render as a fixed mark, [upper] maps the ASCII letters,
    [float] reads the few fields used below. *)
Definition mark_format (v : pyval) : string := "<value>".

Definition ascii_upper (c : Ascii.ascii) : Ascii.ascii :=
  let n := Ascii.nat_of_ascii c in
  if (Nat.leb 97 n && Nat.leb n 122)%bool
  then Ascii.ascii_of_nat (n - 32) else c.

Fixpoint upper_ascii (s : string) : string :=
  match s with
  | EmptyString => EmptyString
  | String c rest => String (ascii_upper c) (upper_ascii rest)
  end.

Definition ascii_lower (c : Ascii.ascii) : Ascii.ascii :=
  let n := Ascii.nat_of_ascii c in
  if (Nat.leb 65 n && Nat.leb n 90)%bool
  then Ascii.ascii_of_nat (n + 32) else c.

Fixpoint lower_ascii (s : string) : string :=
  match s with
  | EmptyString => EmptyString
  | String c rest => String (ascii_lower c) (lower_ascii rest)
  end.

Definition read_float (s : string) : option pynum :=
  if String.eqb s "55" then Some (Fin 55)
  else if String.eqb s "80" then Some (Fin 80)
  else if String.eqb s "nan" then Some NaN
  else None.

Definition exc_name (e : pyexc) : string :=
  match e with
  | TypeError => "TypeError"
  | KeyError k => k
  | AttributeError => "AttributeError"
  | ValueError => "ValueError"
  end.

Definition run_control_spray := app.control_spray mark_format upper_ascii exc_name.
Definition run_update_sensors := app.update_sensors exc_name.
Definition run_analyze_image := app.analyze_image mark_format read_float exc_name.

Definition run_allowed_file := app.allowed_file lower_ascii.
Definition run_analyze_image_request :=
  app.analyze_image_request mark_format read_float exc_name lower_ascii.

Definition boot : app.state := app.initial_state "2024-01-01T00:00:00".

(** The state after an accepted START at boot (the stored moisture is 55). *)
Definition spraying : app.state :=
  snd (run_control_spray
         (VDict {[ "command" := VStr "start" ]}) "2024-01-01T00:05:00" boot).

(** A START that carries a moisture of 80. *)
Definition wet_start : gmap string pyval :=
  list_to_map [("command", VStr "start"); ("soil_moisture", VNum (Fin 80))].

(** A STOP that carries a moisture of 95. *)
Definition wet_stop : gmap string pyval :=
  list_to_map [("command", VStr "stop"); ("soil_moisture", VNum (Fin 95))].

(** * Properties *)

(** ** Comparisons of finite numbers *)

Lemma num_le_Fin (a b : Q) : num_le (Fin a) (Fin b) = true <-> (a <= b)%Q.
Proof. simpl. apply Qle_bool_iff. Qed.

Lemma num_le_Fin_false (a b : Q) :
  num_le (Fin a) (Fin b) = false <-> (b < a)%Q.
Proof.
  simpl. rewrite <- not_true_iff_false, Qle_bool_iff.
  split; [apply Qnot_le_lt | apply Qlt_not_le].
Qed.

Lemma num_lt_Fin (a b : Q) : num_lt (Fin a) (Fin b) = true <-> (a < b)%Q.
Proof.
  simpl. rewrite negb_true_iff, <- not_true_iff_false, Qle_bool_iff.
  split; [apply Qnot_le_lt | apply Qlt_not_le].
Qed.

Lemma num_lt_Fin_false (a b : Q) :
  num_lt (Fin a) (Fin b) = false <-> (b <= a)%Q.
Proof. simpl. rewrite negb_false_iff. apply Qle_bool_iff. Qed.

(** Case analysis on every comparison of a finite number with a literal,
    each case recorded as a fact about [Q]. *)
Ltac split_comparisons :=
  repeat match goal with
  | |- context [num_le (Fin ?a) (Fin ?b)] =>
      let E := fresh "E" in
      destruct (num_le (Fin a) (Fin b)) eqn:E;
      [apply num_le_Fin in E | apply num_le_Fin_false in E]
  | |- context [num_lt (Fin ?a) (Fin ?b)] =>
      let E := fresh "E" in
      destruct (num_lt (Fin a) (Fin b)) eqn:E;
      [apply num_lt_Fin in E | apply num_lt_Fin_false in E]
  end.

(** ** The moisture window *)

Lemma chained_le_true (lo hi : Z) (m : pynum) :
  chained_le lo (VNum m) hi = Ok true <-> within lo hi m.
Proof.
  unfold chained_le, within, num_of_Z. cbn [as_number].
  destruct m as [q| | |]; cbn [num_le]; try (split; [discriminate | tauto]).
  change (Qle_bool (inject_Z lo) q) with (num_le (Fin (inject_Z lo)) (Fin q)).
  change (Qle_bool q (inject_Z hi)) with (num_le (Fin q) (Fin (inject_Z hi))).
  split.
  - destruct (num_le (Fin (inject_Z lo)) (Fin q)) eqn:E1; [|discriminate].
    intros H. injection H as H.
    split; [now apply num_le_Fin | now apply num_le_Fin].
  - intros [H1 H2]. apply num_le_Fin in H1, H2. now rewrite H1, H2.
Qed.

Lemma chained_le_total (lo hi : Z) (m : pynum) :
  exists b : bool, chained_le lo (VNum m) hi = Ok b.
Proof.
  unfold chained_le. cbn [as_number].
  destruct (num_le (num_of_Z lo) m); eauto.
Qed.

Lemma chained_le_false (lo hi : Z) (m : pynum) :
  chained_le lo (VNum m) hi = Ok false <-> ~ within lo hi m.
Proof.
  rewrite <- chained_le_true.
  destruct (chained_le_total lo hi m) as [[|] ->]; split; congruence.
Qed.

(** The comparison only looks at the number a value stands for. *)
Lemma chained_le_as_number (lo hi : Z) (v : pyval) (x : pynum) :
  as_number v = Some x -> chained_le lo v hi = chained_le lo (VNum x) hi.
Proof. intros Hx. unfold chained_le. now rewrite Hx. Qed.

Lemma chained_le_number (lo hi : Z) (v : pyval) (x : pynum) :
  as_number v = Some x -> exists b : bool, chained_le lo v hi = Ok b.
Proof.
  intros Hx. rewrite (chained_le_as_number lo hi v x Hx).
  apply chained_le_total.
Qed.

Lemma chained_le_outside (lo hi : Z) (v : pyval) (x : pynum) :
  as_number v = Some x -> ~ within lo hi x -> chained_le lo v hi = Ok false.
Proof.
  intros Hx Hout. rewrite (chained_le_as_number lo hi v x Hx).
  now apply chained_le_false.
Qed.

(** A value that stands for no number cannot be compared. *)
Lemma chained_le_unordered (lo hi : Z) (v : pyval) :
  as_number v = None -> chained_le lo v hi = Raise TypeError.
Proof. intros Hx. unfold chained_le. now rewrite Hx. Qed.

(** The chained comparison with the bounds 40 and 70 answers true exactly
    when 40 <= m <= 70, both bounds included; 39.9 and 70.1 are refused, 40
    and 70 accepted (39.9 and 70.1 taken both as decimals and as the
    binary64 numbers the literals denote). *)
Lemma window_check (m : pynum) :
  (chained_le 40 (VNum m) 70 = Ok true <-> within 40 70 m) /\
  (chained_le 40 (VNum m) 70 = Ok false <-> ~ within 40 70 m) /\
  chained_le spray_logic.SOIL_MOISTURE_MIN (VNum m)
    spray_logic.SOIL_MOISTURE_MAX = chained_le 40 (VNum m) 70 /\
  chained_le 40 (VNum (Fin 39.9)) 70 = Ok false /\
  chained_le 40 (VNum (Fin float_39_9)) 70 = Ok false /\
  chained_le 40 (VNum (Fin 40)) 70 = Ok true /\
  chained_le 40 (VNum (Fin 70)) 70 = Ok true /\
  chained_le 40 (VNum (Fin 70.1)) 70 = Ok false /\
  chained_le 40 (VNum (Fin float_70_1)) 70 = Ok false.
Proof.
  split; [apply chained_le_true|].
  split; [apply chained_le_false|].
  repeat split; reflexivity.
Qed.

(** ** Duration bands *)

Lemma duration_same (x : pynum) :
  model.calculate_spray_duration x = spray_logic.calculate_spray_duration x.
Proof. reflexivity. Qed.

(** C4: the duration is 0 up to 0, 3 strictly between 0 and 25, 5 from 25
    and below 50, 8 from 50 and below 75, 10 from 75 on, in both copies of
    [calculate_spray_duration]; 25, 50 and 75 fall in the upper band; the
    result is always one of 0, 3, 5, 8, 10 (also at the infinities and at
    NaN). *)
Theorem C4_duration_bands (q : Q) (x : pynum) :
  let d := spray_logic.calculate_spray_duration in
  ((q <= 0)%Q -> d (Fin q) = 0%Z) /\
  ((0 < q)%Q /\ (q < 25)%Q -> d (Fin q) = 3%Z) /\
  ((25 <= q)%Q /\ (q < 50)%Q -> d (Fin q) = 5%Z) /\
  ((50 <= q)%Q /\ (q < 75)%Q -> d (Fin q) = 8%Z) /\
  ((75 <= q)%Q -> d (Fin q) = 10%Z) /\
  d (Fin 25) = 5%Z /\ d (Fin 50) = 8%Z /\ d (Fin 75) = 10%Z /\
  d x ∈ [0%Z; 3%Z; 5%Z; 8%Z; 10%Z] /\
  model.calculate_spray_duration x = d x.
Proof.
  intros d. subst d. unfold spray_logic.calculate_spray_duration, num_of_Z.
  repeat match goal with |- _ /\ _ => split end;
    try reflexivity;
    try (intros H; split_comparisons; cbv [inject_Z] in *;
         (reflexivity || (exfalso; lra))).
  destruct x as [q'| | |]; cbn [num_le num_lt];
    repeat match goal with
           | |- context [if ?b then _ else _] => destruct b
           end; set_solver.
Qed.

(** ** Severity and the recommendation flag *)

(** C7: the severity label is Low below 10, Moderate from 10 and below 30,
    High from 30 and below 50, Severe from 50 on (the infinities fall in
    the outer bands, NaN fails every test and is labelled Severe). *)
Theorem C7_severity_bands (q : Q) :
  ((q < 10)%Q -> model._get_severity (Fin q) = "Low") /\
  ((10 <= q)%Q /\ (q < 30)%Q -> model._get_severity (Fin q) = "Moderate") /\
  ((30 <= q)%Q /\ (q < 50)%Q -> model._get_severity (Fin q) = "High") /\
  ((50 <= q)%Q -> model._get_severity (Fin q) = "Severe") /\
  model._get_severity NInf = "Low" /\
  model._get_severity PInf = "Severe" /\
  model._get_severity NaN = "Severe".
Proof.
  unfold model._get_severity, num_of_Z.
  repeat match goal with |- _ /\ _ => split end;
    try reflexivity;
    intros H; split_comparisons; cbv [inject_Z] in *;
    (reflexivity || (exfalso; lra)).
Qed.

Lemma num_gt_exceeds (b : Z) (x : pynum) :
  num_gt x (num_of_Z b) = true <-> exceeds b x.
Proof.
  unfold num_gt, num_of_Z, exceeds.
  destruct x as [q| | |]; [apply num_lt_Fin | | |]; cbn [num_lt];
    split; (discriminate || tauto).
Qed.

Lemma healthy_entry :
  model.db_item "healthy" =
    Ok {| model.name := "Healthy Plant";
          model.pesticide := "None required";
          model.dosage := "N/A";
          model.description := "No disease detected" |}.
Proof. reflexivity. Qed.

(** [get_recommendation] never raises: the fallback entry is in the table. *)
Lemma get_recommendation_total (k : string) (x : pynum) :
  exists r, model.get_recommendation k x = Ok r /\
    model.infection_level r = x /\
    model.severity r = model._get_severity x /\
    model.spray_recommended r = num_gt x (num_of_Z 15) /\
    model.spray_duration r = model.calculate_spray_duration x.
Proof.
  unfold model.get_recommendation. rewrite healthy_entry. cbn [bind].
  eexists. split; [reflexivity|]. cbn. auto.
Qed.

(** C6: the recommendation's flag is true exactly when the infection level
    is above 15, whatever band the duration falls in; at 20 the duration is
    3 and the flag is true. *)
Theorem C6_spray_recommended_iff (k : string) (x : pynum) :
  (exists r, model.get_recommendation k x = Ok r /\
     (model.spray_recommended r = true <-> exceeds 15 x) /\
     model.spray_duration r = model.calculate_spray_duration x) /\
  (exists r, model.get_recommendation k (Fin 20) = Ok r /\
     model.spray_recommended r = true /\ model.spray_duration r = 3%Z).
Proof.
  split.
  - destruct (get_recommendation_total k x) as (r & Hr & _ & _ & Hf & Hd).
    exists r. split; [exact Hr|]. split; [|exact Hd].
    rewrite Hf. apply num_gt_exceeds.
  - destruct (get_recommendation_total k (Fin 20)) as (r & Hr & _ & _ & Hf & Hd).
    exists r. split; [exact Hr|]. rewrite Hf, Hd. split; reflexivity.
Qed.

(** ** Unknown disease keys *)

Lemma lookup_outside_keys (k : string) :
  k ∉ model.DISEASE_KEYS -> model.DISEASE_DB !! k = None.
Proof.
  unfold model.DISEASE_KEYS, model.DISEASE_DB. intros Hk.
  rewrite !not_elem_of_cons in Hk.
  destruct Hk as (H1 & H2 & H3 & H4 & H5 & _).
  cbn [list_to_map foldr uncurry fst snd].
  rewrite !lookup_insert_ne by congruence. apply lookup_empty.
Qed.

(** C9: a key that is not in [DISEASE_DB] does not raise; the
    recommendation carries the name, pesticide, dosage and description of
    the healthy entry, next to the usual figures for the infection level. *)
Theorem C9_unknown_key_falls_back (k : string) (x : pynum) :
  model.DISEASE_DB !! k = None ->
  model.get_recommendation k x =
    Ok {| model.disease_name := "Healthy Plant";
          model.rec_description := "No disease detected";
          model.infection_level := x;
          model.severity := model._get_severity x;
          model.rec_pesticide := "None required";
          model.rec_dosage := "N/A";
          model.spray_recommended := num_gt x (num_of_Z 15);
          model.spray_duration := model.calculate_spray_duration x |}.
Proof.
  intros Hk. unfold model.get_recommendation.
  rewrite healthy_entry, Hk. reflexivity.
Qed.

Lemma C9_unknown_key_witness :
  model.DISEASE_DB !! "corn_smut" = None /\
  exists r, model.get_recommendation "corn_smut" (Fin 42) = Ok r /\
    model.disease_name r = "Healthy Plant" /\
    model.severity r = "High".
Proof.
  assert (Hk : model.DISEASE_DB !! "corn_smut" = None) by reflexivity.
  split; [exact Hk|].
  eexists. split; [apply (C9_unknown_key_falls_back "corn_smut" (Fin 42) Hk)|].
  split; reflexivity.
Defined.

(** ** Dictionaries *)

Lemma dict_update_lookup (d other : gmap string pyval) (k : string) :
  app.dict_update d other !! k =
    match other !! k with
    | Some v => Some v
    | None => d !! k
    end.
Proof.
  unfold app.dict_update. destruct (other !! k) as [v|] eqn:E.
  - now apply lookup_union_Some_l.
  - now apply lookup_union_r.
Qed.

(** Lookups in a dictionary literal, key by key. *)
Ltac literal_lookup :=
  cbn [list_to_map foldr uncurry fst snd];
  repeat first
    [ rewrite lookup_insert_eq
    | rewrite lookup_insert_ne by congruence
    | rewrite lookup_singleton_eq
    | rewrite lookup_singleton_ne by congruence
    | rewrite lookup_empty ].

Section ControlSpray.

Variable py_format : pyval -> string.
Variable str_upper : string -> string.
Variable py_str_exc : pyexc -> string.

Local Abbreviation control_spray :=
  (app.control_spray py_format str_upper py_str_exc).

(** C2: a START whose moisture is outside the window is answered 403 and
    writes [last_command = 'REJECTED'] and nothing else: [is_spraying] and
    every other key of [spray_status] keep their value, and so does the
    sensor reading. *)
Theorem C2_rejected_start_keeps_actuator
    (d : gmap string pyval) (cmd now : string) (st : app.state) (m : pynum) :
  d !! "command" = Some (VStr cmd) ->
  str_upper cmd = "START" ->
  as_number (resolved_moisture d st) = Some m ->
  ~ within 40 70 m ->
  let out := control_spray (VDict d) now st in
  app.status (fst out) = 403%Z /\
  app.body (fst out) !! "command" = Some (VStr "REJECTED") /\
  app.spray_status (snd out) =
    <["last_command" := VStr "REJECTED"]> (app.spray_status st) /\
  app.spray_status (snd out) !! "last_command" = Some (VStr "REJECTED") /\
  app.spray_status (snd out) !! "is_spraying" =
    app.spray_status st !! "is_spraying" /\
  (forall k, k <> "last_command" ->
     app.spray_status (snd out) !! k = app.spray_status st !! k) /\
  app.latest_sensor_data (snd out) = app.latest_sensor_data st.
Proof.
  intros Hcmd Hup Hnum Hout out. subst out.
  pose proof (chained_le_outside 40 70 _ m Hnum Hout) as Hsafe.
  unfold app.control_spray, app.dict_get, app.upper.
  cbn [bind]. rewrite Hcmd. cbn [from_option id bind]. rewrite Hup.
  fold (resolved_moisture d st). rewrite Hsafe.
  cbn [bind String.eqb Ascii.eqb Bool.eqb orb negb app.catch_all fst snd
       app.status app.body app.spray_status app.latest_sensor_data].
  split; [reflexivity|].
  split; [now literal_lookup|].
  split; [reflexivity|].
  split; [apply lookup_insert_eq|].
  split; [now apply lookup_insert_ne|].
  split; [|reflexivity].
  intros k Hk. apply lookup_insert_ne. congruence.
Qed.

(** X18: the accepted START, for comparison: with a moisture inside the
    window the pump is switched on and the status records the command, the
    clock reading and the duration of the body as it is (5 when the body
    has none); the sensor reading is not written. *)
Lemma control_spray_start_accepted
    (d : gmap string pyval) (cmd now : string) (st : app.state) (m : pynum) :
  d !! "command" = Some (VStr cmd) ->
  str_upper cmd = "START" ->
  as_number (resolved_moisture d st) = Some m ->
  within 40 70 m ->
  let out := control_spray (VDict d) now st in
  app.status (fst out) = 200%Z /\
  app.spray_status (snd out) !! "is_spraying" = Some (VBool true) /\
  app.spray_status (snd out) !! "last_command" = Some (VStr "START") /\
  app.spray_status (snd out) !! "last_spray_time" = Some (VStr now) /\
  app.spray_status (snd out) !! "spray_duration" =
    Some (default (VInt 5) (d !! "duration")) /\
  app.latest_sensor_data (snd out) = app.latest_sensor_data st.
Proof.
  intros Hcmd Hup Hnum Hin out. subst out.
  assert (Hsafe : chained_le 40 (resolved_moisture d st) 70 = Ok true).
  { rewrite (chained_le_as_number 40 70 _ m Hnum). now apply chained_le_true. }
  unfold app.control_spray, app.dict_get, app.upper.
  cbn [bind]. rewrite Hcmd. cbn [from_option id bind]. rewrite Hup.
  fold (resolved_moisture d st). rewrite Hsafe.
  cbn [bind String.eqb Ascii.eqb Bool.eqb orb negb app.catch_all fst snd
       app.status app.body app.spray_status app.latest_sensor_data].
  split; [reflexivity|].
  rewrite !dict_update_lookup. literal_lookup. repeat split; reflexivity.
Qed.

(** X20: a STOP is answered 200 whatever number the moisture is, inside
    the window or not, and from any prior status: [is_spraying] becomes
    False, [last_command] becomes 'STOP', the other keys of [spray_status]
    and the sensor reading keep their value. *)
Theorem stop_accepted_for_numeric_moisture
    (d : gmap string pyval) (cmd now : string) (st : app.state) (x : pynum) :
  d !! "command" = Some (VStr cmd) ->
  str_upper cmd = "STOP" ->
  as_number (resolved_moisture d st) = Some x ->
  let out := control_spray (VDict d) now st in
  app.status (fst out) = 200%Z /\
  app.body (fst out) !! "success" = Some (VBool true) /\
  app.body (fst out) !! "command" = Some (VStr "STOP_SPRAY") /\
  app.spray_status (snd out) !! "is_spraying" = Some (VBool false) /\
  app.spray_status (snd out) !! "last_command" = Some (VStr "STOP") /\
  (forall k, k <> "is_spraying" -> k <> "last_command" ->
     app.spray_status (snd out) !! k = app.spray_status st !! k) /\
  app.latest_sensor_data (snd out) = app.latest_sensor_data st.
Proof.
  intros Hcmd Hup Hnum out. subst out.
  destruct (chained_le_number 40 70 _ x Hnum) as [safe Hsafe].
  unfold app.control_spray, app.dict_get, app.upper.
  cbn [bind]. rewrite Hcmd. cbn [from_option id bind]. rewrite Hup.
  fold (resolved_moisture d st). rewrite Hsafe.
  cbn [bind String.eqb Ascii.eqb Bool.eqb orb negb app.catch_all fst snd
       app.status app.body app.spray_status app.latest_sensor_data].
  split; [reflexivity|].
  split; [now literal_lookup|].
  split; [now literal_lookup|].
  split; [rewrite dict_update_lookup; now literal_lookup|].
  split; [rewrite dict_update_lookup; now literal_lookup|].
  split; [|reflexivity].
  intros k Hk1 Hk2. rewrite dict_update_lookup. now literal_lookup.
Qed.

End ControlSpray.

Example spraying_is_spraying :
  app.spray_status spraying !! "is_spraying" = Some (VBool true) /\
  app.spray_status spraying !! "last_command" = Some (VStr "START") /\
  app.spray_status spraying !! "spray_duration" = Some (VInt 5).
Proof. repeat split; reflexivity. Qed.

Lemma C2_rejected_start_witness :
  let out := run_control_spray (VDict wet_start) "2024-01-01T00:06:00" spraying in
  app.status (fst out) = 403%Z /\
  app.spray_status (snd out) !! "is_spraying" = Some (VBool true) /\
  app.spray_status (snd out) !! "last_command" = Some (VStr "REJECTED").
Proof.
  pose proof (C2_rejected_start_keeps_actuator mark_format upper_ascii exc_name
                wet_start "start" "2024-01-01T00:06:00" spraying (Fin 80)
                eq_refl eq_refl eq_refl) as H.
  assert (Hout : ~ within 40 70 (Fin 80)) by (intros [_ Hle]; now apply Hle).
  specialize (H Hout).
  cbv zeta in *. unfold run_control_spray.
  destruct H as (H1 & _ & _ & H2 & H3 & _).
  split; [exact H1|]. split; [|exact H2].
  rewrite H3. reflexivity.
Defined.

Lemma stop_accepted_witness :
  let out := run_control_spray (VDict wet_stop) "2024-01-01T00:07:00" spraying in
  app.status (fst out) = 200%Z /\
  app.spray_status (snd out) !! "is_spraying" = Some (VBool false) /\
  app.spray_status (snd out) !! "last_command" = Some (VStr "STOP").
Proof.
  pose proof (stop_accepted_for_numeric_moisture mark_format upper_ascii exc_name
                wet_stop "stop" "2024-01-01T00:07:00" spraying (Fin 95)
                eq_refl eq_refl eq_refl) as H.
  cbv zeta in *. unfold run_control_spray.
  destruct H as (H1 & _ & _ & H2 & H3 & _).
  split; [exact H1|]. split; [exact H2|exact H3].
Defined.

(** ** The sensor store *)

Section SensorStore.

Variable py_str_exc : pyexc -> string.

Local Abbreviation update_sensors := (app.update_sensors py_str_exc).

(** What [update_sensors] stores, when the reading has its three keys. *)
Lemma update_sensors_stores
    (d : gmap string pyval) (now : string) (st : app.state) (t h m : pyval) :
  app.latest_sensor_data st !! "temperature" = Some t ->
  app.latest_sensor_data st !! "humidity" = Some h ->
  app.latest_sensor_data st !! "soil_moisture" = Some m ->
  let new := app.dict_update (app.latest_sensor_data st) (list_to_map [
               ("temperature", default t (d !! "temperature"));
               ("humidity", default h (d !! "humidity"));
               ("soil_moisture", default m (d !! "soil_moisture"));
               ("timestamp", VStr now)
             ]) in
  update_sensors (VDict d) now st =
    ({| app.body := list_to_map [
          ("success", VBool true);
          ("message", VStr "Sensor data updated");
          ("data", VDict new)
        ];
        app.status := 200 |},
     {| app.latest_sensor_data := new;
        app.spray_status := app.spray_status st |}).
Proof.
  intros Ht Hh Hm new. subst new.
  unfold app.update_sensors, app.dict_get, app.dict_item.
  rewrite Ht, Hh, Hm. reflexivity.
Qed.

(** C8: after a partial update the reading holds the supplied value of each
    supplied field and the previous value of each field left out, its
    timestamp is the time of the update, nothing else in the state moves,
    and reading back returns what was stored; recording a soil moisture of
    55 alone reads back 55 with temperature and humidity as before. *)
Theorem C8_partial_update_roundtrip
    (d : gmap string pyval) (now : string) (st : app.state) (t h m : pyval) :
  app.latest_sensor_data st !! "temperature" = Some t ->
  app.latest_sensor_data st !! "humidity" = Some h ->
  app.latest_sensor_data st !! "soil_moisture" = Some m ->
  let out := update_sensors (VDict d) now st in
  let stored := app.latest_sensor_data (snd out) in
  app.status (fst out) = 200%Z /\
  stored !! "temperature" = Some (default t (d !! "temperature")) /\
  stored !! "humidity" = Some (default h (d !! "humidity")) /\
  stored !! "soil_moisture" = Some (default m (d !! "soil_moisture")) /\
  stored !! "timestamp" = Some (VStr now) /\
  (forall k, k <> "temperature" -> k <> "humidity" ->
     k <> "soil_moisture" -> k <> "timestamp" ->
     stored !! k = app.latest_sensor_data st !! k) /\
  app.spray_status (snd out) = app.spray_status st /\
  app.body (app.get_sensors (snd out)) !! "data" = Some (VDict stored) /\
  (d = {[ "soil_moisture" := VNum (Fin 55) ]} ->
     stored !! "soil_moisture" = Some (VNum (Fin 55)) /\
     stored !! "temperature" = Some t /\
     stored !! "humidity" = Some h).
Proof.
  intros Ht Hh Hm out stored. subst stored out.
  rewrite (update_sensors_stores d now st t h m Ht Hh Hm).
  cbv zeta. cbn [fst snd app.status app.latest_sensor_data app.spray_status].
  split; [reflexivity|].
  split; [rewrite dict_update_lookup; now literal_lookup|].
  split; [rewrite dict_update_lookup; now literal_lookup|].
  split; [rewrite dict_update_lookup; now literal_lookup|].
  split; [rewrite dict_update_lookup; now literal_lookup|].
  split; [intros k H1 H2 H3 H4; rewrite dict_update_lookup;
          now literal_lookup|].
  split; [reflexivity|].
  split; [unfold app.get_sensors; cbn [app.body app.latest_sensor_data];
          now literal_lookup|].
  intros ->. rewrite !dict_update_lookup. literal_lookup.
  repeat split; reflexivity.
Qed.

(** [update_sensors] keeps the three keys in place. *)
Lemma update_sensors_has_reading
    (data : pyval) (now : string) (st : app.state) :
  has_reading st -> has_reading (snd (update_sensors data now st)).
Proof.
  intros ([t Ht] & [h Hh] & [m Hm]). destruct data as [| | | | |d];
    try (cbn; unfold has_reading; rewrite Ht, Hh, Hm;
         eauto).
  rewrite (update_sensors_stores d now st t h m Ht Hh Hm).
  cbv zeta. cbn [snd]. unfold has_reading. cbn [app.latest_sensor_data].
  rewrite !dict_update_lookup. literal_lookup. eauto.
Qed.

End SensorStore.

Lemma boot_has_reading (boot_time : string) :
  has_reading (app.initial_state boot_time).
Proof. unfold has_reading. cbn. repeat split; eexists; reflexivity. Qed.

Lemma C8_partial_update_witness :
  let out := run_update_sensors
               (VDict {[ "soil_moisture" := VNum (Fin 55) ]})
               "2024-01-01T00:10:00" spraying in
  app.latest_sensor_data (snd out) !! "soil_moisture" = Some (VNum (Fin 55)) /\
  app.latest_sensor_data (snd out) !! "temperature" = Some (VNum (Fin 25)) /\
  app.latest_sensor_data (snd out) !! "timestamp" =
    Some (VStr "2024-01-01T00:10:00").
Proof.
  pose proof (C8_partial_update_roundtrip exc_name
                {[ "soil_moisture" := VNum (Fin 55) ]}
                "2024-01-01T00:10:00" spraying
                (VNum (Fin 25)) (VNum (Fin 60)) (VNum (Fin 55))
                eq_refl eq_refl eq_refl) as H.
  cbv zeta in *. unfold run_update_sensors.
  destruct H as (_ & _ & _ & _ & H4 & _ & _ & _ & H8).
  destruct (H8 eq_refl) as (Hm & Ht & _).
  split; [exact Hm|]. split; [exact Ht|exact H4].
Defined.

(** ** The analysis response *)

Section Analyze.

Variable py_format : pyval -> string.
Variable py_float : string -> option pynum.
Variable py_str_exc : pyexc -> string.

Local Abbreviation analyze_image :=
  (app.analyze_image py_format py_float py_str_exc).

(** The two ways out of [analyze_image] once the moisture has been compared:
    above 15 the flag is true, [and] hands over the plain [bool] of the
    window and the response is sent; otherwise [and] hands over the
    [numpy.bool_] itself and [jsonify] raises. *)
Lemma analyze_image_flow
    (form : option string) (key : string) (conf : pyval) (level : pynum)
    (path now : string) (st : app.state) (v : pyval) (safe : bool) :
  analysed_moisture py_float form st = Ok v ->
  chained_le 40 v 70 = Ok safe ->
  let out := analyze_image form (Ok tt) key conf level path now st in
  (num_gt level (num_of_Z 15) = true ->
     app.status (fst out) = 200%Z /\
     app.body (fst out) !! "spray_recommended" = Some (VBool safe) /\
     app.body (fst out) !! "spray_allowed" = Some (VBool safe) /\
     app.body (fst out) !! "moisture_safe" = Some (VBool safe) /\
     snd out = st) /\
  (num_gt level (num_of_Z 15) = false ->
     out = ({| app.body := {[ "error" := VStr (py_str_exc TypeError) ]};
               app.status := 500 |}, st)).
Proof.
  intros Hv Hsafe out. subst out.
  destruct (get_recommendation_total key level) as (r & Hr & _ & _ & Hf & _).
  unfold app.analyze_image. fold (analysed_moisture py_float form st).
  rewrite Hv. cbn [bind]. rewrite Hr. cbn [bind]. rewrite Hsafe.
  cbn [bind]. rewrite Hf. split; intros Hflag; rewrite Hflag.
  - cbn [app.py_and app.truthy app.json_truth bind app.catch_all fst snd
         app.status app.body].
    split; [reflexivity|].
    split; [now literal_lookup|].
    split; [now literal_lookup|].
    split; [now literal_lookup|reflexivity].
  - reflexivity.
Qed.

(** X21: above an infection level of 15 the analysis answers 200, and its
    [spray_recommended], [spray_allowed] and [moisture_safe] are all the
    verdict of the window on the moisture checked. *)
Lemma analyze_flags_above_15
    (form : option string) (key : string) (conf : pyval) (level : pynum)
    (path now : string) (st : app.state) (v : pyval) (m : pynum) :
  analysed_moisture py_float form st = Ok v ->
  as_number v = Some m ->
  exceeds 15 level ->
  let out := analyze_image form (Ok tt) key conf level path now st in
  exists allowed : bool,
    app.status (fst out) = 200%Z /\
    app.body (fst out) !! "spray_recommended" = Some (VBool allowed) /\
    app.body (fst out) !! "spray_allowed" = Some (VBool allowed) /\
    app.body (fst out) !! "moisture_safe" = Some (VBool allowed) /\
    (allowed = true <-> within 40 70 m) /\
    snd out = st.
Proof.
  intros Hv Hm Hlevel out. subst out.
  destruct (chained_le_number 40 70 v m Hm) as [safe Hsafe].
  destruct (analyze_image_flow form key conf level path now st v safe Hv Hsafe)
    as [Hhigh _].
  apply num_gt_exceeds in Hlevel.
  destruct (Hhigh Hlevel) as (H1 & H2 & H3 & H4 & H5).
  exists safe. repeat (split; [assumption|]). split; [|assumption].
  rewrite (chained_le_as_number 40 70 v m Hm) in Hsafe.
  rewrite <- chained_le_true, Hsafe. split; congruence.
Qed.

(** C10: at an infection level that is not above 15 the flag of the
    recommendation is a false [numpy.bool_], [and] returns it as it is,
    and [jsonify] raises on it: the handler answers 500 and the response
    carries neither [spray_recommended] nor [spray_allowed], whatever the
    moisture, so also when the moisture lies in the window. *)
Theorem C10_no_flags_at_low_infection
    (form : option string) (key : string) (conf : pyval) (level : pynum)
    (path now : string) (st : app.state) (v : pyval) (m : pynum) :
  analysed_moisture py_float form st = Ok v ->
  as_number v = Some m ->
  ~ exceeds 15 level ->
  let out := analyze_image form (Ok tt) key conf level path now st in
  app.status (fst out) = 500%Z /\
  app.body (fst out) = {[ "error" := VStr (py_str_exc TypeError) ]} /\
  app.body (fst out) !! "spray_recommended" = None /\
  app.body (fst out) !! "spray_allowed" = None /\
  snd out = st.
Proof.
  intros Hv Hm Hlevel out. subst out.
  destruct (chained_le_number 40 70 v m Hm) as [safe Hsafe].
  destruct (analyze_image_flow form key conf level path now st v safe Hv Hsafe)
    as [_ Hlow].
  rewrite <- num_gt_exceeds in Hlevel. apply not_true_is_false in Hlevel.
  rewrite (Hlow Hlevel). cbn [fst snd app.status app.body].
  repeat split; now literal_lookup.
Qed.

End Analyze.

(** Infection 20 with the stored moisture of 55: recommended and allowed. *)
Lemma analyze_flags_witness :
  let out := run_analyze_image None (Ok tt) "rice_blast" (VNum (Fin 88.5))
               (Fin 20) "uploads/leaf.jpg" "2024-01-01T00:20:00" boot in
  app.body (fst out) !! "spray_recommended" = Some (VBool true) /\
  app.body (fst out) !! "spray_allowed" = Some (VBool true).
Proof.
  pose proof (analyze_flags_above_15 mark_format read_float exc_name
                None "rice_blast" (VNum (Fin 88.5)) (Fin 20)
                "uploads/leaf.jpg" "2024-01-01T00:20:00" boot
                (VNum (Fin 55)) (Fin 55) eq_refl eq_refl eq_refl) as H.
  cbv zeta in *. unfold run_analyze_image.
  destruct H as (allowed & _ & H1 & H2 & _ & H4 & _).
  assert (Hin : within 40 70 (Fin 55)) by (split; discriminate).
  rewrite H1, H2, (proj2 H4 Hin). split; reflexivity.
Defined.

(** Infection 10 with the stored moisture of 55: the moisture is in the
    window, and the analysis answers 500 without the two fields. *)
Lemma C10_low_infection_witness :
  let out := run_analyze_image None (Ok tt) "rice_blast" (VNum (Fin 88.5))
               (Fin 10) "uploads/leaf.jpg" "2024-01-01T00:20:00" boot in
  within 40 70 (Fin 55) /\
  app.status (fst out) = 500%Z /\
  app.body (fst out) !! "spray_allowed" = None.
Proof.
  assert (Hlow : ~ exceeds 15 (Fin 10)) by (intros H; discriminate H).
  pose proof (C10_no_flags_at_low_infection mark_format read_float exc_name
                None "rice_blast" (VNum (Fin 88.5)) (Fin 10)
                "uploads/leaf.jpg" "2024-01-01T00:20:00" boot
                (VNum (Fin 55)) (Fin 55) eq_refl eq_refl Hlow) as H.
  cbv zeta in *. unfold run_analyze_image.
  destruct H as (H1 & _ & _ & H4 & _).
  split; [split; discriminate|]. split; [exact H1|exact H4].
Defined.

(** ** The states the handlers reach *)

Section Reachable.

Variable py_format : pyval -> string.
Variable str_upper : string -> string.
Variable py_float : string -> option pynum.
Variable py_str_exc : pyexc -> string.

(** [control_spray] never writes to the sensor reading. *)
Lemma control_spray_sensor_frame
    (data : pyval) (now : string) (st : app.state) :
  app.latest_sensor_data
    (snd (app.control_spray py_format str_upper py_str_exc data now st)) =
  app.latest_sensor_data st.
Proof.
  unfold app.control_spray.
  destruct (app.dict_get data "command" (Ok (VStr ""))) as [field|e];
    cbn [bind app.catch_all snd]; [|reflexivity].
  destruct (app.upper str_upper field) as [command|e];
    cbn [bind app.catch_all snd]; [|reflexivity].
  destruct (app.dict_get data "duration" _) as [duration|e];
    cbn [bind app.catch_all snd]; [|reflexivity].
  destruct (app.dict_get data "soil_moisture" _) as [soil_moisture|e];
    cbn [bind app.catch_all snd]; [|reflexivity].
  destruct (negb _); [reflexivity|].
  destruct (chained_le 40 soil_moisture 70) as [safe|e];
    cbn [bind app.catch_all snd]; [|reflexivity].
  destruct (String.eqb command "START"), safe; reflexivity.
Qed.

(** [analyze_image] writes nothing. *)
Lemma analyze_image_frame
    (form : option string) (inference : result unit) (key : string)
    (conf : pyval) (level : pynum) (path now : string) (st : app.state) :
  snd (app.analyze_image py_format py_float py_str_exc
         form inference key conf level path now st) = st.
Proof.
  unfold app.analyze_image. fold (analysed_moisture py_float form st).
  destruct (analysed_moisture py_float form st) as [v|e];
    cbn [bind app.catch_all snd]; [|reflexivity].
  destruct inference as [u|e]; cbn [bind app.catch_all snd]; [|reflexivity].
  destruct (model.get_recommendation key level) as [r|e];
    cbn [bind app.catch_all snd]; [|reflexivity].
  destruct (chained_le 40 v 70) as [safe|e];
    cbn [bind app.catch_all snd]; [|reflexivity].
  destruct (app.json_truth _); reflexivity.
Qed.

(** Every reading the process ever holds has its three measurements, so
    [update_sensors] never meets a missing key. *)
Lemma reachable_has_reading (st : app.state) :
  reachable py_format str_upper py_float py_str_exc st -> has_reading st.
Proof.
  induction 1 as [boot_time|st req now Hst IH].
  - apply boot_has_reading.
  - destruct req as [data|data|form inference key conf level path]; cbn [serve].
    + now apply update_sensors_has_reading.
    + unfold has_reading. now rewrite control_spray_sensor_frame.
    + now rewrite analyze_image_frame.
Qed.

(** X19: with a moisture that stands for no number the comparison raises
    before the command is looked at: START and STOP alike are answered 500
    and the state is left as it was. *)
Lemma control_spray_unordered_moisture
    (d : gmap string pyval) (cmd now : string) (st : app.state) :
  d !! "command" = Some (VStr cmd) ->
  str_upper cmd = "START" \/ str_upper cmd = "STOP" ->
  as_number (resolved_moisture d st) = None ->
  app.control_spray py_format str_upper py_str_exc (VDict d) now st =
    ({| app.body := {[ "error" := VStr (py_str_exc TypeError) ]};
        app.status := 500 |}, st).
Proof.
  intros Hcmd Hup Hnum.
  unfold app.control_spray, app.dict_get, app.upper.
  cbn [bind]. rewrite Hcmd. cbn [from_option id bind].
  fold (resolved_moisture d st).
  rewrite (chained_le_unordered 40 70 _ Hnum).
  destruct Hup as [-> | ->]; reflexivity.
Qed.

End Reachable.

(** ** The scenarios of the specification *)

(** Infection 85 with a moisture of 55: ten seconds, recommended, and a
    START is accepted. *)
Example scenario_severe_and_safe :
  model.calculate_spray_duration (Fin 85) = 10%Z /\
  num_gt (Fin 85) (num_of_Z 15) = true /\
  chained_le 40 (VNum (Fin 55)) 70 = Ok true /\
  app.spray_status
    (snd (run_control_spray (VDict {[ "command" := VStr "START" ]})
            "2024-01-01T01:00:00" boot)) !! "is_spraying"
    = Some (VBool true).
Proof. repeat split; reflexivity. Qed.

(** Infection 45 with a moisture of 80: a START is refused with 403 and the
    pump stays off. *)
Example scenario_too_wet :
  let out := run_control_spray (VDict wet_start) "2024-01-01T01:00:00" boot in
  chained_le 40 (VNum (Fin 80)) 70 = Ok false /\
  app.status (fst out) = 403%Z /\
  app.spray_status (snd out) !! "is_spraying" = Some (VBool false) /\
  app.spray_status (snd out) !! "last_command" = Some (VStr "REJECTED").
Proof. repeat split; reflexivity. Qed.

(** * Further properties of the three modules *)

(** ** spray_logic.py: durations and decisions *)

Lemma duration_cases (x : pynum) :
  let d := spray_logic.calculate_spray_duration x in
  d = 0%Z \/ d = 3%Z \/ d = 5%Z \/ d = 8%Z \/ d = 10%Z.
Proof.
  cbv zeta. unfold spray_logic.calculate_spray_duration.
  repeat match goal with
         | |- context [if ?b then _ else _] => destruct b
         end; auto 6.
Qed.

(** A duration of 0 is the answer to the first test alone. *)
Lemma duration_zero_iff (x : pynum) :
  spray_logic.calculate_spray_duration x = 0%Z <->
  num_le x (num_of_Z 0) = true.
Proof.
  unfold spray_logic.calculate_spray_duration.
  destruct (num_le x (num_of_Z 0)); [tauto|].
  repeat match goal with
         | |- context [if ?b then _ else _] => destruct b
         end; split; discriminate.
Qed.

(** X1: a larger infection level never gets a shorter spray: when
    [x <= y] holds in Python, the duration for [x] is at most the duration
    for [y]. *)
Theorem duration_monotone (x y : pynum) :
  num_le x y = true ->
  (spray_logic.calculate_spray_duration x
   <= spray_logic.calculate_spray_duration y)%Z.
Proof.
  unfold spray_logic.calculate_spray_duration, num_of_Z.
  destruct x as [a| | |], y as [b| | |]; intros Hxy;
    try discriminate Hxy; try apply num_le_Fin in Hxy;
    split_comparisons; cbn [num_le num_lt]; cbv [inject_Z] in *;
    try lia; exfalso; lra.
Qed.

Lemma duration_monotone_witness :
  num_le (Fin 24.9) (Fin 25) = true /\
  (spray_logic.calculate_spray_duration (Fin 24.9)
   <= spray_logic.calculate_spray_duration (Fin 25))%Z.
Proof.
  assert (H : num_le (Fin 24.9) (Fin 25) = true) by reflexivity.
  split; [exact H|]. exact (duration_monotone (Fin 24.9) (Fin 25) H).
Defined.

(** X2: [calculate_spray_with_safety] allows a spray exactly when the
    moisture lies in the window and the duration for the infection level is
    not 0; the duration it returns is then that duration, between 3 and 10,
    and is 0 whenever the spray is refused. *)
Theorem spray_with_safety_decision
    (py_format : pyval -> string) (level : pynum) (v : pyval) (m : pynum) :
  as_number v = Some m ->
  exists r,
    spray_logic.calculate_spray_with_safety py_format level v = Ok r /\
    (spray_logic.spray_allowed r = true <->
       within 40 70 m /\ spray_logic.calculate_spray_duration level <> 0%Z) /\
    spray_logic.duration r =
      (if spray_logic.spray_allowed r
       then spray_logic.calculate_spray_duration level else 0%Z) /\
    (spray_logic.spray_allowed r = true ->
       (3 <= spray_logic.duration r <= 10)%Z).
Proof.
  intros Hm. unfold spray_logic.calculate_spray_with_safety.
  change spray_logic.SOIL_MOISTURE_MIN with 40%Z.
  change spray_logic.SOIL_MOISTURE_MAX with 70%Z.
  rewrite (chained_le_as_number 40 70 v m Hm).
  destruct (chained_le_total 40 70 m) as [safe Hsafe].
  pose proof (chained_le_true 40 70 m) as Hwin. rewrite Hsafe in *.
  cbn [bind]. destruct safe; cbn [negb].
  - pose proof (duration_cases level) as Hd. cbv zeta in Hd.
    destruct (Z.eqb_spec (spray_logic.calculate_spray_duration level) 0)
      as [Hz|Hz]; eexists; (split; [reflexivity|]);
      cbn [spray_logic.spray_allowed spray_logic.duration].
    + repeat split; try discriminate; tauto.
    + repeat split; try tauto; lia.
  - eexists. split; [reflexivity|].
    cbn [spray_logic.spray_allowed spray_logic.duration].
    repeat split; try discriminate.
    intros [Hin _]. apply Hwin in Hin. discriminate.
Qed.

Lemma spray_with_safety_witness :
  exists r,
    spray_logic.calculate_spray_with_safety mark_format (Fin 60)
      (VNum (Fin 55)) = Ok r /\
    spray_logic.spray_allowed r = true /\ spray_logic.duration r = 8%Z.
Proof.
  destruct (spray_with_safety_decision mark_format (Fin 60) (VNum (Fin 55))
              (Fin 55) eq_refl) as (r & Hr & Hiff & Hd & _).
  exists r. split; [exact Hr|].
  assert (Ha : spray_logic.spray_allowed r = true).
  { apply Hiff. split; [split; discriminate | discriminate]. }
  split; [exact Ha|]. rewrite Hd, Ha. reflexivity.
Defined.

(** X3: [get_spray_recommendation] never raises and never falls back: the
    table has an entry for the duration of every infection level, the
    treatment returned is that entry, and it is the no-action entry exactly
    when the duration is 0. *)
Theorem spray_recommendation_entry (level : pynum) (disease_name : string) :
  exists entry,
    spray_logic.recommendations disease_name
      !! spray_logic.calculate_spray_duration level = Some entry /\
    spray_logic.get_spray_recommendation level disease_name =
      Ok {| spray_logic.rec_duration :=
              spray_logic.calculate_spray_duration level;
            spray_logic.rec_infection_level := level;
            spray_logic.rec_disease_name := disease_name;
            spray_logic.rec_treatment := entry |} /\
    (spray_logic.action entry = "No action needed" <->
       spray_logic.calculate_spray_duration level = 0%Z).
Proof.
  unfold spray_logic.get_spray_recommendation.
  pose proof (duration_cases level) as Hd. cbv zeta in Hd.
  destruct Hd as [Hd|[Hd|[Hd|[Hd|Hd]]]]; rewrite Hd;
    eexists; (split; [reflexivity|]); (split; [reflexivity|]);
    cbn [spray_logic.action]; split; (reflexivity || discriminate).
Qed.

(** ** model.py: the recommendation and the demo classifier *)

(** X4: the three scales of a recommendation agree with each other: when
    spraying is recommended the duration is at least 3 seconds and the
    severity is not Low; a Low severity never gets more than 3 seconds and a
    Severe one never less than 8. *)
Theorem recommendation_scales_agree (key : string) (level : pynum) :
  exists r,
    model.get_recommendation key level = Ok r /\
    (model.spray_recommended r = true ->
       (3 <= model.spray_duration r)%Z /\ model.severity r <> "Low") /\
    (model.severity r = "Low" -> (model.spray_duration r <= 3)%Z) /\
    (model.severity r = "Severe" -> (8 <= model.spray_duration r)%Z).
Proof.
  destruct (get_recommendation_total key level)
    as (r & Hr & _ & Hs & Hf & Hd).
  exists r. split; [exact Hr|]. rewrite Hs, Hf, Hd. clear.
  unfold model._get_severity, model.calculate_spray_duration, num_gt, num_of_Z.
  destruct level as [q| | |].
  - split_comparisons; cbv [inject_Z] in *;
      repeat split; intros; try discriminate; try lia; exfalso; lra.
  - cbn. repeat split; intros; try discriminate; lia.
  - cbn. repeat split; intros; try discriminate; lia.
  - cbn. repeat split; intros; try discriminate; lia.
Qed.

(** The keys listed are the keys of the table. *)
Lemma disease_keys_of_db (k : string) :
  k ∈ model.DISEASE_KEYS <-> is_Some (model.DISEASE_DB !! k).
Proof.
  split.
  - unfold model.DISEASE_KEYS. rewrite !elem_of_cons, elem_of_nil.
    intros [->|[->|[->|[->|[->|[]]]]]]; eexists; reflexivity.
  - intros [info Hk]. destruct (decide (k ∈ model.DISEASE_KEYS)) as [|Hn];
      [assumption|].
    rewrite (lookup_outside_keys k Hn) in Hk. discriminate.
Qed.

(** X5: whatever index and confidence are drawn, the demo classifier
    returns a key of the disease table other than 'healthy', with the
    confidence drawn, so the recommendation built from it never carries the
    healthy entry. *)
Theorem classifier_never_healthy
    (choice : nat) (confidence : pynum) (key : string) (c level : pynum) :
  model._classify_disease choice confidence = Some (key, c) ->
  c = confidence /\
  key <> "healthy" /\
  is_Some (model.DISEASE_DB !! key) /\
  exists r, model.get_recommendation key level = Ok r /\
            model.disease_name r <> "Healthy Plant".
Proof.
  unfold model._classify_disease, model.candidate_diseases.
  cbn [removelast model.DISEASE_KEYS].
  destruct choice as [|[|[|[|n]]]]; cbn [lookup list_lookup];
    try (destruct n; discriminate);
    intros [= <- <-]; (split; [reflexivity|]); (split; [discriminate|]);
    (split; [eexists; reflexivity|]);
    eexists; (split; [reflexivity|]); discriminate.
Qed.

Lemma classifier_never_healthy_witness :
  model._classify_disease 2 (Fin 0.8) = Some ("rice_blast", Fin 0.8) /\
  "rice_blast" <> "healthy".
Proof.
  assert (H : model._classify_disease 2 (Fin 0.8) = Some ("rice_blast", Fin 0.8))
    by reflexivity.
  split; [exact H|].
  exact (proj1 (proj2 (classifier_never_healthy 2 (Fin 0.8) "rice_blast"
                         (Fin 0.8) (Fin 0) H))).
Defined.

(** Every index below the number of candidates is a draw. *)
Lemma classifier_draws (choice : nat) (confidence : pynum) :
  choice < 4 -> is_Some (model._classify_disease choice confidence).
Proof.
  intros Hlt. destruct choice as [|[|[|[|n]]]]; try lia; eexists; reflexivity.
Qed.

(** ** app.py: which uploads are opened *)

Lemma after_last_dot_None (s : string) :
  app.after_last_dot s = None <-> has_dot s = false.
Proof.
  induction s as [|c rest IH]; cbn [app.after_last_dot has_dot]; [tauto|].
  destruct (app.after_last_dot rest) as [ext|].
  - destruct IH as [_ IH]. split; [discriminate|].
    rewrite orb_false_iff. intros [_ Hr]. now apply IH.
  - destruct IH as [IH _]. rewrite (IH eq_refl), orb_false_r.
    destruct (Ascii.eqb c "."); split; congruence.
Qed.

Lemma after_last_dot_Some (s ext : string) :
  app.after_last_dot s = Some ext <->
  exists stem, s = stem ++ "." ++ ext /\ has_dot ext = false.
Proof.
  split.
  - revert ext. induction s as [|c rest IH]; intros ext;
      cbn [app.after_last_dot]; [discriminate|].
    destruct (app.after_last_dot rest) as [ext'|] eqn:Hrest.
    + intros [= <-]. destruct (IH ext' eq_refl) as (stem & -> & Hno).
      exists (String c stem). split; [reflexivity|exact Hno].
    + destruct (Ascii.eqb_spec c ".") as [->|]; [|discriminate].
      intros [= <-]. exists EmptyString. split; [reflexivity|].
      now apply after_last_dot_None.
  - intros (stem & -> & Hno). apply after_last_dot_None in Hno.
    induction stem as [|c stem IH].
    + change ("" ++ "." ++ ext) with (String "."%char ext).
      cbn [app.after_last_dot]. now rewrite Hno.
    + change (String c stem ++ "." ++ ext)
        with (String c (stem ++ "." ++ ext)).
      cbn [app.after_last_dot]. now rewrite IH.
Qed.

Lemma allowed_extension (x : string) :
  x ∈ app.ALLOWED_EXTENSIONS <->
  x = "png" \/ x = "jpg" \/ x = "jpeg" \/ x = "gif" \/ x = "bmp".
Proof.
  unfold app.ALLOWED_EXTENSIONS. rewrite elem_of_list_to_set.
  rewrite !elem_of_cons, elem_of_nil. tauto.
Qed.

(** X6: [allowed_file] accepts a name exactly when it has a dot and what
    follows its last dot, lower-cased, is png, jpg, jpeg, gif or bmp: only
    the last extension counts, the part before the dot may be empty, and a
    name without a dot is refused. *)
Theorem allowed_file_spec (str_lower : string -> string) (filename : string) :
  (app.allowed_file str_lower filename = true <->
   exists stem ext,
     filename = stem ++ "." ++ ext /\ has_dot ext = false /\
     (str_lower ext = "png" \/ str_lower ext = "jpg" \/
      str_lower ext = "jpeg" \/ str_lower ext = "gif" \/
      str_lower ext = "bmp")) /\
  (has_dot filename = false -> app.allowed_file str_lower filename = false).
Proof.
  unfold app.allowed_file. split.
  - destruct (app.after_last_dot filename) as [ext|] eqn:Hext.
    + rewrite bool_decide_eq_true, allowed_extension.
      apply after_last_dot_Some in Hext. destruct Hext as (stem & -> & Hno).
      split.
      * intros Hin. now exists stem, ext.
      * intros (stem' & ext' & Heq & Hno' & Hin).
        assert (Hsome : app.after_last_dot (stem ++ "." ++ ext) = Some ext')
          by (apply after_last_dot_Some; eauto).
        assert (Hsome' : app.after_last_dot (stem ++ "." ++ ext) = Some ext)
          by (apply after_last_dot_Some; eauto).
        congruence.
    + split; [discriminate|].
      intros (stem & ext & Heq & Hno & _).
      assert (Hsome : app.after_last_dot filename = Some ext)
        by (apply after_last_dot_Some; eauto).
      congruence.
  - intros Hno. apply after_last_dot_None in Hno. now rewrite Hno.
Qed.

Example allowed_file_examples :
  run_allowed_file "leaf.PNG" = true /\
  run_allowed_file ".png" = true /\
  run_allowed_file "leaf.png.exe" = false /\
  run_allowed_file "leaf.jpg." = false /\
  run_allowed_file "png" = false /\
  run_allowed_file "" = false.
Proof. repeat split; reflexivity. Qed.

(** ** app.py: the analysis request as a whole *)

Section AnalyzeRequest.

Variable py_format : pyval -> string.
Variable py_float : string -> option pynum.
Variable py_str_exc : pyexc -> string.
Variable str_lower : string -> string.

Local Abbreviation analyze_image_request :=
  (app.analyze_image_request py_format py_float py_str_exc str_lower).

(** X7: an upload whose name [allowed_file] refuses is never opened: the
    answer is 400, 'No file selected' for an empty name and 'No image
    provided' otherwise, whatever else the request carries, and the state
    is left alone. *)
Theorem refused_upload_is_400
    (filename : string) (opened : result unit) (form : option string)
    (inference : result unit)
    (key : string) (conf : pyval) (level : pynum) (path now : string)
    (st : app.state) :
  app.allowed_file str_lower filename = false ->
  let out := analyze_image_request (app.UploadedFile filename) opened form
               inference key conf level path now st in
  app.status (fst out) = 400%Z /\
  app.body (fst out) =
    {[ "error" := VStr (if String.eqb filename ""
                        then "No file selected" else "No image provided") ]} /\
  snd out = st.
Proof.
  intros Hno out. subst out. unfold app.analyze_image_request.
  rewrite Hno. destruct (String.eqb filename ""); repeat split.
Qed.

(** X8: the analysis handler only reads: on every path, with or without an
    image, answered 200, 400 or 500, the state after the request is the
    state before it. *)
Theorem analyze_request_frame
    (img : app.image_part) (opened : result unit) (form : option string)
    (inference : result unit)
    (key : string) (conf : pyval) (level : pynum) (path now : string)
    (st : app.state) :
  let out := analyze_image_request img opened form inference key conf level
               path now st in
  snd out = st /\
  (app.status (fst out) = 200%Z \/ app.status (fst out) = 400%Z \/
   app.status (fst out) = 500%Z).
Proof.
  cbv zeta. unfold app.analyze_image_request.
  assert (Hback :
    let out := app.analyze_image py_format py_float py_str_exc
                 form inference key conf level path now st in
    snd out = st /\
    (app.status (fst out) = 200%Z \/ app.status (fst out) = 400%Z \/
     app.status (fst out) = 500%Z)).
  { cbv zeta. unfold app.analyze_image.
    fold (analysed_moisture py_float form st).
    destruct (analysed_moisture py_float form st) as [v|e];
      cbn [bind app.catch_all fst snd app.status]; [|auto].
    destruct inference as [u|e];
      cbn [bind app.catch_all fst snd app.status]; [|auto].
    destruct (model.get_recommendation key level) as [r|e];
      cbn [bind app.catch_all fst snd app.status]; [|auto].
    destruct (chained_le 40 v 70) as [safe|e];
      cbn [bind app.catch_all fst snd app.status]; [|auto].
    destruct (app.json_truth _);
      cbn [bind app.catch_all fst snd app.status]; auto. }
  cbv zeta in Hback.
  destruct img as [filename| |];
    [destruct (String.eqb filename ""); [cbn; auto|];
     destruct (app.allowed_file str_lower filename); [|cbn; auto]| |cbn; auto];
    (destruct opened as [[]|e]; [exact Hback|cbn; auto]).
Qed.

End AnalyzeRequest.

Lemma refused_upload_witness :
  let out := run_analyze_image_request (app.UploadedFile "leaf.png.exe")
               (Ok tt) None (Ok tt) "rice_blast" (VNum (Fin 88.5)) (Fin 20)
               "uploads/leaf.jpg" "2024-01-01T00:20:00" boot in
  app.status (fst out) = 400%Z /\ snd out = boot.
Proof.
  pose proof (refused_upload_is_400 mark_format read_float exc_name lower_ascii
                "leaf.png.exe" (Ok tt) None (Ok tt) "rice_blast"
                (VNum (Fin 88.5))
                (Fin 20) "uploads/leaf.jpg" "2024-01-01T00:20:00" boot
                eq_refl) as H.
  cbv zeta in *. unfold run_analyze_image_request.
  destruct H as (H1 & _ & H3). split; [exact H1|exact H3].
Defined.

(** ** app.py: every way through [control_spray] *)

Section ControlSprayPaths.

Variable py_format : pyval -> string.
Variable str_upper : string -> string.
Variable py_str_exc : pyexc -> string.

Local Abbreviation control_spray :=
  (app.control_spray py_format str_upper py_str_exc).

(** The status an accepted START writes. *)
Local Abbreviation started d now st :=
  (app.dict_update (app.spray_status st) (list_to_map [
     ("is_spraying", VBool true);
     ("last_command", VStr "START");
     ("last_spray_time", VStr now);
     ("spray_duration", default (VInt 5) (d !! "duration"))
   ])).

(** The status a STOP writes. *)
Local Abbreviation stopped st :=
  (app.dict_update (app.spray_status st) (list_to_map [
     ("is_spraying", VBool false);
     ("last_command", VStr "STOP")
   ])).

Lemma control_spray_start_state
    (d : gmap string pyval) (cmd now : string) (st : app.state) (safe : bool) :
  command_field d = VStr cmd ->
  str_upper cmd = "START" ->
  chained_le 40 (resolved_moisture d st) 70 = Ok safe ->
  let out := control_spray (VDict d) now st in
  app.status (fst out) = (if safe then 200%Z else 403%Z) /\
  snd out =
    {| app.latest_sensor_data := app.latest_sensor_data st;
       app.spray_status :=
         if safe then started d now st
         else <["last_command" := VStr "REJECTED"]> (app.spray_status st) |}.
Proof.
  intros Hcmd Hup Hsafe out. subst out.
  unfold app.control_spray, app.dict_get, app.upper. cbn [bind].
  fold (command_field d). rewrite Hcmd. cbn [bind]. rewrite Hup.
  fold (resolved_moisture d st). rewrite Hsafe.
  destruct safe; split; reflexivity.
Qed.

Lemma control_spray_stop_state
    (d : gmap string pyval) (cmd now : string) (st : app.state) (safe : bool) :
  command_field d = VStr cmd ->
  str_upper cmd = "STOP" ->
  chained_le 40 (resolved_moisture d st) 70 = Ok safe ->
  let out := control_spray (VDict d) now st in
  app.status (fst out) = 200%Z /\
  snd out =
    {| app.latest_sensor_data := app.latest_sensor_data st;
       app.spray_status := stopped st |}.
Proof.
  intros Hcmd Hup Hsafe out. subst out.
  unfold app.control_spray, app.dict_get, app.upper. cbn [bind].
  fold (command_field d). rewrite Hcmd. cbn [bind]. rewrite Hup.
  fold (resolved_moisture d st). rewrite Hsafe.
  split; reflexivity.
Qed.

(** A command that is neither START nor STOP once upper-cased. *)
Lemma control_spray_invalid
    (d : gmap string pyval) (cmd now : string) (st : app.state) :
  command_field d = VStr cmd ->
  str_upper cmd <> "START" ->
  str_upper cmd <> "STOP" ->
  control_spray (VDict d) now st =
    ({| app.body := {[ "error" := VStr "Invalid command. Use START or STOP" ]};
        app.status := 400 |}, st).
Proof.
  intros Hcmd H1 H2.
  unfold app.control_spray, app.dict_get, app.upper. cbn [bind].
  fold (command_field d). rewrite Hcmd. cbn [bind].
  apply String.eqb_neq in H1, H2. rewrite H1, H2. reflexivity.
Qed.

(** A body no command can be read from raises [AttributeError]. *)
Lemma control_spray_unreadable
    (data : pyval) (now : string) (st : app.state) :
  unreadable_command data ->
  control_spray data now st =
    ({| app.body := {[ "error" := VStr (py_str_exc AttributeError) ]};
        app.status := 500 |}, st).
Proof.
  unfold unreadable_command, app.control_spray, app.dict_get, app.upper.
  destruct data as [| | | | |d]; try reflexivity.
  cbn [bind]. fold (command_field d).
  destruct (command_field d); (reflexivity || contradiction).
Qed.

(** With a moisture that stands for no number, a START or a STOP raises
    at the comparison. *)
Lemma control_spray_unordered
    (d : gmap string pyval) (cmd now : string) (st : app.state) :
  command_field d = VStr cmd ->
  str_upper cmd = "START" \/ str_upper cmd = "STOP" ->
  as_number (resolved_moisture d st) = None ->
  control_spray (VDict d) now st =
    ({| app.body := {[ "error" := VStr (py_str_exc TypeError) ]};
        app.status := 500 |}, st).
Proof.
  intros Hcmd Hup Hnum.
  unfold app.control_spray, app.dict_get, app.upper. cbn [bind].
  fold (command_field d). rewrite Hcmd. cbn [bind].
  fold (resolved_moisture d st).
  rewrite (chained_le_unordered 40 70 _ Hnum).
  destruct Hup as [-> | ->]; reflexivity.
Qed.

(** The four ways through [control_spray]: nothing written (400 or 500), a
    START refused, a START accepted, a STOP. *)
Lemma control_spray_paths (data : pyval) (now : string) (st : app.state) :
  let out := control_spray data now st in
  (snd out = st /\
   (app.status (fst out) = 400%Z \/ app.status (fst out) = 500%Z)) \/
  (exists d cmd m,
     data = VDict d /\ command_field d = VStr cmd /\
     str_upper cmd = "START" /\
     as_number (resolved_moisture d st) = Some m /\
     ((~ within 40 70 m /\ app.status (fst out) = 403%Z /\
       snd out =
         {| app.latest_sensor_data := app.latest_sensor_data st;
            app.spray_status :=
              <["last_command" := VStr "REJECTED"]> (app.spray_status st) |})
      \/
      (within 40 70 m /\ app.status (fst out) = 200%Z /\
       snd out =
         {| app.latest_sensor_data := app.latest_sensor_data st;
            app.spray_status := started d now st |}))) \/
  (exists d cmd m,
     data = VDict d /\ command_field d = VStr cmd /\
     str_upper cmd = "STOP" /\
     as_number (resolved_moisture d st) = Some m /\
     app.status (fst out) = 200%Z /\
     snd out =
       {| app.latest_sensor_data := app.latest_sensor_data st;
          app.spray_status := stopped st |}).
Proof.
  cbv zeta.
  assert (Hbad : unreadable_command data ->
            snd (control_spray data now st) = st /\
            (app.status (fst (control_spray data now st)) = 400%Z \/
             app.status (fst (control_spray data now st)) = 500%Z)).
  { intros H. rewrite (control_spray_unreadable data now st H). auto. }
  destruct data as [| | | | |d]; try (left; apply Hbad; exact I).
  destruct (command_field d) as [| | |cmd| |] eqn:Hcmd;
    try (left; apply Hbad; unfold unreadable_command; now rewrite Hcmd).
  clear Hbad.
  destruct (decide (str_upper cmd = "START")) as [Hstart|Hstart];
    [|destruct (decide (str_upper cmd = "STOP")) as [Hstop|Hstop]].
  - destruct (as_number (resolved_moisture d st)) as [m|] eqn:Hnum.
    + right; left. exists d, cmd, m. repeat (split; [assumption || reflexivity|]).
      destruct (chained_le_number 40 70 _ m Hnum) as [safe Hsafe].
      destruct (control_spray_start_state d cmd now st safe Hcmd Hstart Hsafe)
        as [Hs Hst].
      rewrite (chained_le_as_number 40 70 _ m Hnum) in Hsafe.
      destruct safe.
      * right. split; [now apply chained_le_true|]. now split.
      * left. split; [now apply chained_le_false|]. now split.
    + left. rewrite (control_spray_unordered d cmd now st Hcmd
                       (or_introl Hstart) Hnum). auto.
  - destruct (as_number (resolved_moisture d st)) as [m|] eqn:Hnum.
    + right; right. exists d, cmd, m.
      repeat (split; [assumption || reflexivity|]).
      destruct (chained_le_number 40 70 _ m Hnum) as [safe Hsafe].
      exact (control_spray_stop_state d cmd now st safe Hcmd Hstop Hsafe).
    + left. rewrite (control_spray_unordered d cmd now st Hcmd
                       (or_intror Hstop) Hnum). auto.
  - left. rewrite (control_spray_invalid d cmd now st Hcmd Hstart Hstop). auto.
Qed.

(** X9: a command that is neither START nor STOP once upper-cased is
    answered 400 before the moisture is compared, so whatever the moisture
    is, a number or not, and the state is left alone; a body without a
    command is read as the empty command. *)
Theorem invalid_command_is_400
    (d : gmap string pyval) (cmd now : string) (st : app.state) :
  command_field d = VStr cmd ->
  str_upper cmd <> "START" ->
  str_upper cmd <> "STOP" ->
  let out := control_spray (VDict d) now st in
  app.status (fst out) = 400%Z /\
  app.body (fst out) =
    {[ "error" := VStr "Invalid command. Use START or STOP" ]} /\
  snd out = st.
Proof.
  intros Hcmd H1 H2 out. subst out.
  rewrite (control_spray_invalid d cmd now st Hcmd H1 H2).
  repeat split.
Qed.

(** X10: a body that is not a JSON object is answered 500 by both JSON
    handlers, and so is a spray command that is not a string; the state is
    left alone. *)
Theorem unreadable_body_is_500
    (data : pyval) (now : string) (st : app.state) :
  unreadable_command data ->
  control_spray data now st =
    ({| app.body := {[ "error" := VStr (py_str_exc AttributeError) ]};
        app.status := 500 |}, st) /\
  ((forall d, data <> VDict d) ->
   app.update_sensors py_str_exc data now st =
     ({| app.body := {[ "error" := VStr (py_str_exc AttributeError) ]};
         app.status := 500 |}, st)).
Proof.
  intros Hbad. split; [now apply control_spray_unreadable|].
  intros Hno. destruct data as [| | | | |d]; try reflexivity.
  now destruct (Hno d).
Qed.

End ControlSprayPaths.

Lemma invalid_command_witness :
  let out := run_control_spray
               (VDict {[ "command" := VStr "pause" ]}) "2024-01-01T02:00:00"
               spraying in
  app.status (fst out) = 400%Z /\ snd out = spraying.
Proof.
  assert (H1 : upper_ascii "pause" <> "START") by discriminate.
  assert (H2 : upper_ascii "pause" <> "STOP") by discriminate.
  pose proof (invalid_command_is_400 mark_format upper_ascii exc_name
                {[ "command" := VStr "pause" ]} "pause" "2024-01-01T02:00:00"
                spraying eq_refl H1 H2) as H.
  cbv zeta in *. unfold run_control_spray.
  destruct H as (Hs & _ & Hst). split; [exact Hs|exact Hst].
Defined.

Lemma unreadable_body_witness :
  unreadable_command (VList []) /\
  let out := run_control_spray (VList []) "2024-01-01T02:00:00" spraying in
  app.status (fst out) = 500%Z /\ snd out = spraying.
Proof.
  split; [exact I|]. cbv zeta. unfold run_control_spray.
  rewrite (proj1 (unreadable_body_is_500 mark_format upper_ascii exc_name
                    (VList []) "2024-01-01T02:00:00" spraying I)).
  split; reflexivity.
Defined.

(** ** app.py: what a served request can change *)

Section Serving.

Variable py_format : pyval -> string.
Variable str_upper : string -> string.
Variable py_float : string -> option pynum.
Variable py_str_exc : pyexc -> string.

Local Abbreviation control_spray :=
  (app.control_spray py_format str_upper py_str_exc).
Local Abbreviation update_sensors := (app.update_sensors py_str_exc).
Local Abbreviation serve_request :=
  (serve py_format str_upper py_float py_str_exc).

(** [update_sensors] never writes to the spray status. *)
Lemma update_sensors_status_frame
    (data : pyval) (now : string) (st : app.state) :
  app.spray_status (snd (update_sensors data now st)) = app.spray_status st.
Proof.
  unfold app.update_sensors, app.dict_get.
  destruct data as [| | | | |d]; try reflexivity.
  destruct (app.dict_item _ "temperature"); [|reflexivity].
  destruct (app.dict_item _ "humidity"); [|reflexivity].
  destruct (app.dict_item _ "soil_moisture"); reflexivity.
Qed.

(** X11: the recorded pump state changes only through a spray command: if
    [is_spraying] has a value after a request that it did not have before,
    the request was a START with a moisture inside the window (for True) or
    a STOP (for False); sensor pushes and analyses never switch the pump. *)
Theorem pump_switched_only_by_command
    (req : request) (now : string) (st : app.state) (b : bool) :
  app.spray_status (snd (serve_request req now st)) !! "is_spraying"
    = Some (VBool b) ->
  app.spray_status st !! "is_spraying" <> Some (VBool b) ->
  exists d cmd m,
    req = PostControlSpray (VDict d) /\
    command_field d = VStr cmd /\
    as_number (resolved_moisture d st) = Some m /\
    if b then str_upper cmd = "START" /\ within 40 70 m
    else str_upper cmd = "STOP".
Proof.
  intros Hafter Hbefore.
  destruct req as [data|data|form inference key conf level path]; cbn [serve] in Hafter.
  - rewrite update_sensors_status_frame in Hafter. contradiction.
  - pose proof (control_spray_paths py_format str_upper py_str_exc data now st)
      as Hpaths. cbv zeta in Hpaths.
    destruct Hpaths as [[Hsame _]|[(d & cmd & m & -> & Hcmd & Hup & Hnum & Hcase)
                                  |(d & cmd & m & -> & Hcmd & Hup & Hnum & _ & Hst)]].
    + rewrite Hsame in Hafter. contradiction.
    + destruct Hcase as [(_ & _ & Hst)|(Hin & _ & Hst)];
        rewrite Hst in Hafter; cbn [app.spray_status] in Hafter.
      * rewrite lookup_insert_ne in Hafter by discriminate. contradiction.
      * rewrite dict_update_lookup in Hafter. revert Hafter. literal_lookup.
        intros [= <-]. exists d, cmd, m. auto.
    + rewrite Hst in Hafter; cbn [app.spray_status] in Hafter.
      rewrite dict_update_lookup in Hafter. revert Hafter. literal_lookup.
      intros [= <-]. exists d, cmd, m. auto.
  - rewrite analyze_image_frame in Hafter. contradiction.
Qed.

Lemma status_ok_control_spray (data : pyval) (now : string) (st : app.state) :
  status_ok st -> status_ok (snd (control_spray data now st)).
Proof.
  intros Hok.
  pose proof (control_spray_paths py_format str_upper py_str_exc data now st)
    as Hpaths. cbv zeta in Hpaths.
  destruct Hpaths as [[-> _]|[(d & cmd & m & _ & _ & _ & _ & Hcase)
                             |(d & cmd & m & _ & _ & _ & _ & _ & ->)]];
    [exact Hok| |].
  - destruct Hcase as [(_ & _ & ->)|(_ & _ & ->)];
      unfold status_ok in *; cbv zeta in *; cbn [app.spray_status].
    + destruct Hok as (Hb & Ht & _).
      rewrite !lookup_insert_ne by discriminate. rewrite lookup_insert_eq.
      auto 6.
    + rewrite !dict_update_lookup. literal_lookup. eauto 8.
  - unfold status_ok in *; cbv zeta in *; cbn [app.spray_status].
    rewrite !dict_update_lookup. literal_lookup.
    split; [eauto|]. split; [discriminate|auto].
Qed.

Lemma boot_status_ok (boot_time : string) :
  status_ok (app.initial_state boot_time).
Proof.
  unfold status_ok. cbv zeta. cbn [app.initial_state app.spray_status].
  literal_lookup. split; [eauto|]. split; [discriminate|auto].
Qed.

(** X12: in every state the process reaches the reading has its three
    measurements and the spray status is in good shape: [is_spraying] is a
    boolean, a pump recorded as spraying has a start time and a duration,
    and [last_command] is None, START, STOP or REJECTED. *)
Theorem reachable_invariant (st : app.state) :
  reachable py_format str_upper py_float py_str_exc st ->
  has_reading st /\ status_ok st.
Proof.
  induction 1 as [boot_time|st req now Hst [IHr IHs]].
  - split; [apply boot_has_reading|apply boot_status_ok].
  - destruct req as [data|data|form inference key conf level path]; cbn [serve].
    + split; [now apply update_sensors_has_reading|].
      unfold status_ok in *. now rewrite update_sensors_status_frame.
    + split; [|now apply status_ok_control_spray].
      unfold has_reading. now rewrite control_spray_sensor_frame.
    + now rewrite analyze_image_frame.
Qed.

End Serving.

Lemma pump_switched_witness :
  exists d cmd m,
    PostControlSpray (VDict {[ "command" := VStr "start" ]})
      = PostControlSpray (VDict d) /\
    command_field d = VStr cmd /\
    as_number (resolved_moisture d boot) = Some m /\
    upper_ascii cmd = "START" /\ within 40 70 m.
Proof.
  assert (H : app.spray_status boot !! "is_spraying" <> Some (VBool true))
    by (vm_compute; discriminate).
  exact (pump_switched_only_by_command mark_format upper_ascii read_float
           exc_name (PostControlSpray (VDict {[ "command" := VStr "start" ]}))
           "2024-01-01T00:05:00" boot true eq_refl H).
Defined.

Lemma reachable_invariant_witness : has_reading spraying /\ status_ok spraying.
Proof.
  apply (reachable_invariant mark_format upper_ascii read_float exc_name).
  exact (reach_serve mark_format upper_ascii read_float exc_name
           boot (PostControlSpray (VDict {[ "command" := VStr "start" ]}))
           "2024-01-01T00:05:00"
           (reach_boot mark_format upper_ascii read_float exc_name
              "2024-01-01T00:00:00")).
Defined.

(** ** app.py: how the handlers compose *)

Section Composition.

Variable py_format : pyval -> string.
Variable str_upper : string -> string.
Variable py_str_exc : pyexc -> string.

Local Abbreviation control_spray :=
  (app.control_spray py_format str_upper py_str_exc).
Local Abbreviation update_sensors := (app.update_sensors py_str_exc).

(** After a push that carries a soil moisture, a command that carries none
    checks the value pushed. *)
Lemma resolved_after_push
    (ds dc : gmap string pyval) (now : string) (st : app.state) (v : pyval) :
  has_reading st ->
  ds !! "soil_moisture" = Some v ->
  dc !! "soil_moisture" = None ->
  resolved_moisture dc (snd (update_sensors (VDict ds) now st)) = v /\
  app.spray_status (snd (update_sensors (VDict ds) now st)) =
    app.spray_status st.
Proof.
  intros ([t Ht] & [h Hh] & [m Hm]) Hds Hdc.
  rewrite (update_sensors_stores py_str_exc ds now st t h m Ht Hh Hm).
  cbv zeta. cbn [snd app.spray_status]. split; [|reflexivity].
  unfold resolved_moisture. rewrite Hdc. cbn [app.latest_sensor_data].
  rewrite dict_update_lookup. literal_lookup. now rewrite Hds.
Qed.

(** X13: the interlock of a START that carries no moisture reads what the
    sensor endpoint stored last: after a push of a numeric soil moisture
    the START is accepted (200, pump on) when that number is in the window
    and refused (403, pump as before) when it is not. *)
Theorem start_checks_last_push
    (ds dc : gmap string pyval) (cmd t1 t2 : string) (st : app.state)
    (v : pyval) (m : pynum) :
  has_reading st ->
  ds !! "soil_moisture" = Some v ->
  as_number v = Some m ->
  dc !! "soil_moisture" = None ->
  command_field dc = VStr cmd ->
  str_upper cmd = "START" ->
  let out := control_spray (VDict dc) t2
               (snd (update_sensors (VDict ds) t1 st)) in
  (within 40 70 m ->
     app.status (fst out) = 200%Z /\
     app.spray_status (snd out) !! "is_spraying" = Some (VBool true)) /\
  (~ within 40 70 m ->
     app.status (fst out) = 403%Z /\
     app.spray_status (snd out) !! "is_spraying" =
       app.spray_status st !! "is_spraying").
Proof.
  intros Hst Hds Hnum Hdc Hcmd Hup out. subst out.
  destruct (resolved_after_push ds dc t1 st v Hst Hds Hdc) as [Hres Hfr].
  set (st1 := snd (update_sensors (VDict ds) t1 st)) in *.
  assert (Hnum1 : as_number (resolved_moisture dc st1) = Some m)
    by now rewrite Hres.
  split; intros Hwin.
  - assert (Hsafe : chained_le 40 (resolved_moisture dc st1) 70 = Ok true).
    { rewrite (chained_le_as_number 40 70 _ m Hnum1).
      now apply chained_le_true. }
    destruct (control_spray_start_state py_format str_upper py_str_exc
                dc cmd t2 st1 true Hcmd Hup Hsafe) as [Hs ->].
    split; [exact Hs|]. cbn [app.spray_status].
    rewrite dict_update_lookup. now literal_lookup.
  - pose proof (chained_le_outside 40 70 _ m Hnum1 Hwin) as Hsafe.
    destruct (control_spray_start_state py_format str_upper py_str_exc
                dc cmd t2 st1 false Hcmd Hup Hsafe) as [Hs ->].
    split; [exact Hs|]. cbn [app.spray_status].
    rewrite lookup_insert_ne by discriminate. now rewrite Hfr.
Qed.

(** X14: the sensor endpoint stores a soil moisture that is not a number
    as it is, and from then on every START and every STOP that carries no
    moisture of its own is answered 500 and changes nothing: a pump
    recorded as spraying stays recorded as spraying. *)
Theorem unordered_push_blocks_commands
    (ds dc : gmap string pyval) (cmd t1 t2 : string) (st : app.state)
    (v : pyval) :
  has_reading st ->
  ds !! "soil_moisture" = Some v ->
  as_number v = None ->
  dc !! "soil_moisture" = None ->
  command_field dc = VStr cmd ->
  str_upper cmd = "START" \/ str_upper cmd = "STOP" ->
  let st1 := snd (update_sensors (VDict ds) t1 st) in
  let out := control_spray (VDict dc) t2 st1 in
  app.latest_sensor_data st1 !! "soil_moisture" = Some v /\
  app.status (fst out) = 500%Z /\
  snd out = st1 /\
  app.spray_status (snd out) = app.spray_status st.
Proof.
  intros Hst Hds Hnum Hdc Hcmd Hup st1 out. subst out st1.
  destruct (resolved_after_push ds dc t1 st v Hst Hds Hdc) as [Hres Hfr].
  assert (Hstored : app.latest_sensor_data
                      (snd (update_sensors (VDict ds) t1 st))
                      !! "soil_moisture" = Some v).
  { destruct Hst as ([t Ht] & [h Hh] & [m Hm]).
    rewrite (update_sensors_stores py_str_exc ds t1 st t h m Ht Hh Hm).
    cbv zeta. cbn [snd app.latest_sensor_data].
    rewrite dict_update_lookup. literal_lookup. now rewrite Hds. }
  set (st1 := snd (update_sensors (VDict ds) t1 st)) in *.
  assert (Hnum1 : as_number (resolved_moisture dc st1) = None)
    by now rewrite Hres.
  rewrite (control_spray_unordered py_format str_upper py_str_exc
             dc cmd t2 st1 Hcmd Hup Hnum1).
  cbn [fst snd app.status]. auto.
Qed.

(** X15: an accepted START replaces all that the previous accepted START
    wrote: after two accepted STARTs in a row the state is the one the
    second alone would have left, nothing of the first remains. *)
Theorem second_start_replaces_first
    (d1 d2 : gmap string pyval) (cmd1 cmd2 t1 t2 : string) (st : app.state)
    (m1 m2 : pynum) :
  command_field d1 = VStr cmd1 -> str_upper cmd1 = "START" ->
  as_number (resolved_moisture d1 st) = Some m1 -> within 40 70 m1 ->
  command_field d2 = VStr cmd2 -> str_upper cmd2 = "START" ->
  as_number (resolved_moisture d2 st) = Some m2 -> within 40 70 m2 ->
  snd (control_spray (VDict d2) t2 (snd (control_spray (VDict d1) t1 st))) =
  snd (control_spray (VDict d2) t2 st).
Proof.
  intros Hc1 Hu1 Hn1 Hw1 Hc2 Hu2 Hn2 Hw2.
  assert (Hs1 : chained_le 40 (resolved_moisture d1 st) 70 = Ok true).
  { rewrite (chained_le_as_number 40 70 _ m1 Hn1). now apply chained_le_true. }
  assert (Hs2 : chained_le 40 (resolved_moisture d2 st) 70 = Ok true).
  { rewrite (chained_le_as_number 40 70 _ m2 Hn2). now apply chained_le_true. }
  destruct (control_spray_start_state py_format str_upper py_str_exc
              d1 cmd1 t1 st true Hc1 Hu1 Hs1) as [_ ->].
  destruct (control_spray_start_state py_format str_upper py_str_exc
              d2 cmd2 t2 st true Hc2 Hu2 Hs2) as [_ ->].
  match goal with
  | |- snd (control_spray _ _ ?s) = _ =>
      assert (Hs2' : chained_le 40 (resolved_moisture d2 s) 70 = Ok true)
        by exact Hs2;
      destruct (control_spray_start_state py_format str_upper py_str_exc
                  d2 cmd2 t2 s true Hc2 Hu2 Hs2') as [_ ->]
  end.
  cbn [app.latest_sensor_data app.spray_status]. f_equal.
  apply map_eq. intros k. rewrite !dict_update_lookup.
  destruct (decide (k = "is_spraying")) as [->|];
    [now literal_lookup|].
  destruct (decide (k = "last_command")) as [->|];
    [now literal_lookup|].
  destruct (decide (k = "last_spray_time")) as [->|];
    [now literal_lookup|].
  destruct (decide (k = "spray_duration")) as [->|];
    [now literal_lookup|].
  now literal_lookup.
Qed.

(** X16: two sensor pushes in a row leave, for each measurement, the value
    of the second push if it carries one, else the value of the first if it
    carries one, else the value before; the timestamp is that of the
    second. *)
Theorem pushes_compose
    (d1 d2 : gmap string pyval) (t1 t2 : string) (st : app.state)
    (t h m : pyval) :
  app.latest_sensor_data st !! "temperature" = Some t ->
  app.latest_sensor_data st !! "humidity" = Some h ->
  app.latest_sensor_data st !! "soil_moisture" = Some m ->
  let stored :=
    app.latest_sensor_data
      (snd (update_sensors (VDict d2) t2
              (snd (update_sensors (VDict d1) t1 st)))) in
  stored !! "temperature" =
    Some (default (default t (d1 !! "temperature")) (d2 !! "temperature")) /\
  stored !! "humidity" =
    Some (default (default h (d1 !! "humidity")) (d2 !! "humidity")) /\
  stored !! "soil_moisture" =
    Some (default (default m (d1 !! "soil_moisture"))
                  (d2 !! "soil_moisture")) /\
  stored !! "timestamp" = Some (VStr t2).
Proof.
  intros Ht Hh Hm stored. subst stored.
  rewrite (update_sensors_stores py_str_exc d1 t1 st t h m Ht Hh Hm).
  cbv zeta. cbn [snd].
  match goal with
  | |- context [update_sensors (VDict d2) t2 ?s] =>
      rewrite (update_sensors_stores py_str_exc d2 t2 s
                 (default t (d1 !! "temperature"))
                 (default h (d1 !! "humidity"))
                 (default m (d1 !! "soil_moisture")));
      [| cbn [app.latest_sensor_data]; rewrite dict_update_lookup;
         now literal_lookup ..]
  end.
  cbv zeta. cbn [snd app.latest_sensor_data].
  rewrite !dict_update_lookup. literal_lookup. repeat split; reflexivity.
Qed.

End Composition.

(** ** Closed runs of the compositions *)

Lemma spraying_has_reading : has_reading spraying.
Proof.
  unfold has_reading, spraying, run_control_spray.
  rewrite control_spray_sensor_frame. apply boot_has_reading.
Qed.

Lemma within_window_55 : within 40 70 (Fin 55).
Proof. split; discriminate. Qed.

Lemma outside_window_80 : ~ within 40 70 (Fin 80).
Proof. intros [_ Hle]. now apply Hle. Qed.

Lemma start_checks_last_push_witness :
  let out := run_control_spray (VDict {[ "command" := VStr "start" ]})
               "2024-01-01T03:01:00"
               (snd (run_update_sensors
                       (VDict {[ "soil_moisture" := VNum (Fin 80) ]})
                       "2024-01-01T03:00:00" boot)) in
  app.status (fst out) = 403%Z /\
  app.spray_status (snd out) !! "is_spraying" = Some (VBool false).
Proof.
  pose proof (start_checks_last_push mark_format upper_ascii exc_name
                {[ "soil_moisture" := VNum (Fin 80) ]}
                {[ "command" := VStr "start" ]} "start"
                "2024-01-01T03:00:00" "2024-01-01T03:01:00" boot
                (VNum (Fin 80)) (Fin 80)
                (boot_has_reading _) eq_refl eq_refl eq_refl eq_refl eq_refl)
    as H.
  cbv zeta in *. unfold run_control_spray, run_update_sensors.
  destruct H as [_ H]. destruct (H outside_window_80) as [H1 H2].
  split; [exact H1|]. rewrite H2. reflexivity.
Defined.

Lemma unordered_push_witness :
  let st1 := snd (run_update_sensors
                    (VDict {[ "soil_moisture" := VStr "wet" ]})
                    "2024-01-01T03:00:00" spraying) in
  let out := run_control_spray (VDict {[ "command" := VStr "stop" ]})
               "2024-01-01T03:01:00" st1 in
  app.status (fst out) = 500%Z /\
  app.spray_status (snd out) !! "is_spraying" = Some (VBool true).
Proof.
  pose proof (unordered_push_blocks_commands mark_format upper_ascii exc_name
                {[ "soil_moisture" := VStr "wet" ]}
                {[ "command" := VStr "stop" ]} "stop"
                "2024-01-01T03:00:00" "2024-01-01T03:01:00" spraying
                (VStr "wet")
                spraying_has_reading eq_refl eq_refl eq_refl eq_refl
                (or_intror eq_refl)) as H.
  cbv zeta in *. unfold run_control_spray, run_update_sensors.
  destruct H as (_ & H1 & _ & H2).
  split; [exact H1|]. rewrite H2. reflexivity.
Defined.

Lemma second_start_witness :
  snd (run_control_spray
         (VDict (list_to_map [("command", VStr "START");
                              ("duration", VInt 10)]))
         "2024-01-01T03:01:00"
         (snd (run_control_spray
                 (VDict (list_to_map [("command", VStr "start");
                                      ("duration", VInt 3)]))
                 "2024-01-01T03:00:00" boot))) =
  snd (run_control_spray
         (VDict (list_to_map [("command", VStr "START");
                              ("duration", VInt 10)]))
         "2024-01-01T03:01:00" boot).
Proof.
  exact (second_start_replaces_first mark_format upper_ascii exc_name
           (list_to_map [("command", VStr "start"); ("duration", VInt 3)])
           (list_to_map [("command", VStr "START"); ("duration", VInt 10)])
           "start" "START" "2024-01-01T03:00:00" "2024-01-01T03:01:00" boot
           (Fin 55) (Fin 55)
           eq_refl eq_refl eq_refl within_window_55
           eq_refl eq_refl eq_refl within_window_55).
Defined.

Lemma pushes_compose_witness :
  let stored :=
    app.latest_sensor_data
      (snd (run_update_sensors (VDict {[ "humidity" := VNum (Fin 70) ]})
              "2024-01-01T03:01:00"
              (snd (run_update_sensors
                      (VDict {[ "temperature" := VNum (Fin 30) ]})
                      "2024-01-01T03:00:00" boot)))) in
  stored !! "temperature" = Some (VNum (Fin 30)) /\
  stored !! "humidity" = Some (VNum (Fin 70)) /\
  stored !! "soil_moisture" = Some (VNum (Fin 55)) /\
  stored !! "timestamp" = Some (VStr "2024-01-01T03:01:00").
Proof.
  exact (pushes_compose exc_name
           {[ "temperature" := VNum (Fin 30) ]}
           {[ "humidity" := VNum (Fin 70) ]}
           "2024-01-01T03:00:00" "2024-01-01T03:01:00" boot
           (VNum (Fin 25)) (VNum (Fin 60)) (VNum (Fin 55))
           eq_refl eq_refl eq_refl).
Defined.

Lemma start_accepted_witness :
  let out := run_control_spray
               (VDict (list_to_map [("command", VStr "start");
                                    ("duration", VInt 8)]))
               "2024-01-01T03:00:00" boot in
  app.status (fst out) = 200%Z /\
  app.spray_status (snd out) !! "is_spraying" = Some (VBool true) /\
  app.spray_status (snd out) !! "last_spray_time"
    = Some (VStr "2024-01-01T03:00:00") /\
  app.spray_status (snd out) !! "spray_duration" = Some (VInt 8).
Proof.
  pose proof (control_spray_start_accepted mark_format upper_ascii exc_name
                (list_to_map [("command", VStr "start"); ("duration", VInt 8)])
                "start" "2024-01-01T03:00:00" boot (Fin 55)
                eq_refl eq_refl eq_refl within_window_55) as H.
  cbv zeta in *. unfold run_control_spray.
  destruct H as (H1 & H2 & _ & H4 & H5 & _).
  split; [exact H1|]. split; [exact H2|]. split; [exact H4|exact H5].
Defined.

Lemma unordered_moisture_witness :
  run_control_spray
    (VDict (list_to_map [("command", VStr "stop"); ("soil_moisture", VNone)]))
    "2024-01-01T03:00:00" spraying =
  ({| app.body := {[ "error" := VStr "TypeError" ]}; app.status := 500 |},
   spraying).
Proof.
  exact (control_spray_unordered_moisture mark_format upper_ascii exc_name
           (list_to_map [("command", VStr "stop"); ("soil_moisture", VNone)])
           "stop" "2024-01-01T03:00:00" spraying
           eq_refl (or_intror eq_refl) eq_refl).
Defined.

(** ** app.py: the analysis and the command share one interlock *)

Section SharedInterlock.

Variable py_format : pyval -> string.
Variable str_upper : string -> string.
Variable py_float : string -> option pynum.
Variable py_str_exc : pyexc -> string.

(** X17: when neither request carries a moisture of its own and the
    infection level is above 15, so that the analysis answers, its
    [spray_allowed] tells what a START sent in the same state gets: true
    exactly when the START is answered 200, false exactly when it is
    answered 403. *)
Theorem analysis_verdict_predicts_start
    (dc : gmap string pyval) (cmd key : string) (conf : pyval)
    (level m : pynum) (path t1 t2 : string) (st : app.state) :
  dc !! "soil_moisture" = None ->
  command_field dc = VStr cmd ->
  str_upper cmd = "START" ->
  as_number (resolved_moisture dc st) = Some m ->
  exceeds 15 level ->
  let analysis :=
    fst (app.analyze_image py_format py_float py_str_exc
           None (Ok tt) key conf level path t1 st) in
  let answer :=
    fst (app.control_spray py_format str_upper py_str_exc (VDict dc) t2 st) in
  app.status analysis = 200%Z /\
  (app.body analysis !! "spray_allowed" = Some (VBool true) <->
     app.status answer = 200%Z) /\
  (app.body analysis !! "spray_allowed" = Some (VBool false) <->
     app.status answer = 403%Z).
Proof.
  intros Hdc Hcmd Hup Hnum Hlevel analysis answer. subst analysis answer.
  destruct (chained_le_number 40 70 _ m Hnum) as [safe Hsafe].
  destruct (control_spray_start_state py_format str_upper py_str_exc
              dc cmd t2 st safe Hcmd Hup Hsafe) as [-> _].
  assert (Hv : analysed_moisture py_float None st
               = Ok (resolved_moisture dc st)).
  { unfold analysed_moisture, resolved_moisture. now rewrite Hdc. }
  destruct (analyze_image_flow py_format py_float py_str_exc
              None key conf level path t1 st _ safe Hv Hsafe) as [Hhigh _].
  apply num_gt_exceeds in Hlevel.
  destruct (Hhigh Hlevel) as (-> & _ & -> & _).
  split; [reflexivity|].
  destruct safe; split; split; congruence.
Qed.

End SharedInterlock.

Lemma analysis_verdict_witness :
  app.body (fst (run_analyze_image None (Ok tt) "rice_blast" (VNum (Fin 88.5))
                   (Fin 20) "uploads/leaf.jpg" "2024-01-01T04:00:00" boot))
    !! "spray_allowed" = Some (VBool true) <->
  app.status (fst (run_control_spray (VDict {[ "command" := VStr "start" ]})
                     "2024-01-01T04:01:00" boot)) = 200%Z.
Proof.
  exact (proj1 (proj2 (analysis_verdict_predicts_start mark_format upper_ascii
                  read_float exc_name
                  {[ "command" := VStr "start" ]} "start" "rice_blast"
                  (VNum (Fin 88.5)) (Fin 20) (Fin 55) "uploads/leaf.jpg"
                  "2024-01-01T04:00:00" "2024-01-01T04:01:00" boot
                  eq_refl eq_refl eq_refl eq_refl eq_refl))).
Defined.

(** ** The interlock in the code that actuates *)

Section Interlock.

Variable py_format : pyval -> string.
Variable str_upper : string -> string.
Variable py_str_exc : pyexc -> string.

Local Abbreviation control_spray :=
  (app.control_spray py_format str_upper py_str_exc).

(** A body with its moisture field set keeps its command and resolves to
    that moisture. *)
Lemma with_moisture
    (d : gmap string pyval) (st : app.state) (v : pyval) :
  command_field (<["soil_moisture" := v]> d) = command_field d /\
  resolved_moisture (<["soil_moisture" := v]> d) st = v.
Proof.
  unfold command_field, resolved_moisture.
  rewrite lookup_insert_ne by discriminate. now rewrite lookup_insert_eq.
Qed.

(** The answer to a START whose body carries the moisture [v]. *)
Lemma start_status_with_moisture
    (d : gmap string pyval) (cmd now : string) (st : app.state)
    (v : pyval) (safe : bool) :
  command_field d = VStr cmd ->
  str_upper cmd = "START" ->
  chained_le 40 v 70 = Ok safe ->
  app.status
    (fst (control_spray (VDict (<["soil_moisture" := v]> d)) now st)) =
  (if safe then 200%Z else 403%Z).
Proof.
  intros Hcmd Hup Hsafe.
  destruct (with_moisture d st v) as [Hc Hr].
  rewrite <- Hc in Hcmd. rewrite <- Hr in Hsafe.
  exact (proj1 (control_spray_start_state py_format str_upper py_str_exc
                  _ cmd now st safe Hcmd Hup Hsafe)).
Qed.

(** C1: the interlock permits actuation exactly when 40 <= m <= 70, both
    bounds included. A START whose moisture resolves to the number m is
    answered 200 and switches the pump on exactly when m lies in the
    window, and is answered 403 exactly when it does not;
    [calculate_spray_with_safety] allows a spray exactly when m lies in the
    window and the duration is not 0, and refuses with duration 0 outside;
    a START carrying 39.9 or 70.1 (as decimals or as the binary64 numbers
    of the literals) is answered 403, one carrying 40 or 70 is answered
    200. *)
Theorem C1_interlock_window
    (d : gmap string pyval) (cmd now : string) (st : app.state)
    (m level : pynum) :
  command_field d = VStr cmd ->
  str_upper cmd = "START" ->
  resolved_moisture d st = VNum m ->
  let out := control_spray (VDict d) now st in
  let status_at := fun q : Q =>
    app.status
      (fst (control_spray (VDict (<["soil_moisture" := VNum (Fin q)]> d))
              now st)) in
  (app.status (fst out) = 200%Z <-> within 40 70 m) /\
  (app.status (fst out) = 403%Z <-> ~ within 40 70 m) /\
  (within 40 70 m ->
     app.spray_status (snd out) !! "is_spraying" = Some (VBool true)) /\
  (~ within 40 70 m ->
     app.spray_status (snd out) !! "is_spraying" =
       app.spray_status st !! "is_spraying") /\
  (exists r,
     spray_logic.calculate_spray_with_safety py_format level (VNum m) = Ok r /\
     (spray_logic.spray_allowed r = true <->
        within 40 70 m /\
        spray_logic.calculate_spray_duration level <> 0%Z) /\
     (~ within 40 70 m ->
        spray_logic.spray_allowed r = false /\
        spray_logic.duration r = 0%Z)) /\
  status_at 39.9%Q = 403%Z /\ status_at float_39_9 = 403%Z /\
  status_at 40%Q = 200%Z /\ status_at 70%Q = 200%Z /\
  status_at 70.1%Q = 403%Z /\ status_at float_70_1 = 403%Z.
Proof.
  intros Hcmd Hup Hres out status_at. subst out status_at.
  destruct (chained_le_total 40 70 m) as [safe Hsafe].
  pose proof (chained_le_true 40 70 m) as Hin.
  pose proof (chained_le_false 40 70 m) as Hout.
  rewrite Hsafe in Hin, Hout.
  assert (Hs : chained_le 40 (resolved_moisture d st) 70 = Ok safe)
    by now rewrite Hres.
  destruct (control_spray_start_state py_format str_upper py_str_exc
              d cmd now st safe Hcmd Hup Hs) as [-> ->].
  cbn [app.spray_status].
  split; [|split; [|split; [|split; [|split]]]].
  - rewrite <- Hin. destruct safe; split; congruence.
  - rewrite <- Hout. destruct safe; split; congruence.
  - intros Hw. apply Hin in Hw. injection Hw as ->.
    rewrite dict_update_lookup. now literal_lookup.
  - intros Hw. apply Hout in Hw. injection Hw as ->.
    now rewrite lookup_insert_ne by discriminate.
  - unfold spray_logic.calculate_spray_with_safety.
    change spray_logic.SOIL_MOISTURE_MIN with 40%Z.
    change spray_logic.SOIL_MOISTURE_MAX with 70%Z.
    rewrite Hsafe. cbn [bind]. destruct safe; cbn [negb].
    + destruct (Z.eqb_spec (spray_logic.calculate_spray_duration level) 0)
        as [Hz|Hz]; eexists; (split; [reflexivity|]);
        cbn [spray_logic.spray_allowed spray_logic.duration];
        (split; [|intros Hw; apply Hout in Hw; discriminate]);
        split; try discriminate; try tauto.
    + eexists. split; [reflexivity|].
      cbn [spray_logic.spray_allowed spray_logic.duration].
      split; [|auto]. split; [discriminate|].
      intros [Hw _]. apply Hin in Hw. discriminate.
  - repeat split.
    + exact (start_status_with_moisture d cmd now st (VNum (Fin 39.9%Q)) false
               Hcmd Hup eq_refl).
    + exact (start_status_with_moisture d cmd now st (VNum (Fin float_39_9)) false
               Hcmd Hup eq_refl).
    + exact (start_status_with_moisture d cmd now st (VNum (Fin 40%Q)) true
               Hcmd Hup eq_refl).
    + exact (start_status_with_moisture d cmd now st (VNum (Fin 70%Q)) true
               Hcmd Hup eq_refl).
    + exact (start_status_with_moisture d cmd now st (VNum (Fin 70.1%Q)) false
               Hcmd Hup eq_refl).
    + exact (start_status_with_moisture d cmd now st (VNum (Fin float_70_1)) false
               Hcmd Hup eq_refl).
Qed.

Variable py_float : string -> option pynum.

Local Abbreviation serve_request :=
  (serve py_format str_upper py_float py_str_exc).

(** C3: a STOP is gated by the comparison all the same. With the pump
    switched on and a soil moisture that is no number stored by the sensor
    endpoint, a state the process reaches, a STOP that carries no moisture
    raises at the comparison, before the command is looked at: it is
    answered 500 and the pump stays recorded as spraying. *)
Theorem C3_stop_fails_on_unordered_moisture
    (boot_time t1 t2 t3 : string) (v : pyval) :
  str_upper "START" = "START" ->
  str_upper "STOP" = "STOP" ->
  as_number v = None ->
  let st1 :=
    snd (serve_request
           (PostControlSpray (VDict {[ "command" := VStr "START" ]}))
           t1 (app.initial_state boot_time)) in
  let st2 :=
    snd (serve_request
           (PostSensorsUpdate (VDict {[ "soil_moisture" := v ]})) t2 st1) in
  let out :=
    serve_request (PostControlSpray (VDict {[ "command" := VStr "STOP" ]}))
      t3 st2 in
  reachable py_format str_upper py_float py_str_exc st2 /\
  app.spray_status st2 !! "is_spraying" = Some (VBool true) /\
  app.status (fst out) = 500%Z /\
  app.body (fst out) = {[ "error" := VStr (py_str_exc TypeError) ]} /\
  snd out = st2 /\
  app.spray_status (snd out) !! "is_spraying" = Some (VBool true).
Proof.
  intros Hstart Hstop Hnum st1 st2 out.
  assert (Hreach : reachable py_format str_upper py_float py_str_exc st2)
    by (apply reach_serve, reach_serve, reach_boot).
  assert (Hst1 : app.spray_status st1 !! "is_spraying" = Some (VBool true)).
  { subst st1. cbn [serve].
    assert (Hc : command_field {[ "command" := VStr "START" ]} = VStr "START")
      by reflexivity.
    assert (Hs : chained_le 40
                   (resolved_moisture {[ "command" := VStr "START" ]}
                      (app.initial_state boot_time)) 70 = Ok true)
      by reflexivity.
    destruct (control_spray_start_state py_format str_upper py_str_exc
                {[ "command" := VStr "START" ]} "START" t1
                (app.initial_state boot_time) true Hc Hstart Hs)
      as [_ ->].
    cbn [app.spray_status]. rewrite dict_update_lookup. now literal_lookup. }
  assert (Hread : has_reading st1).
  { subst st1. cbn [serve]. unfold has_reading.
    rewrite control_spray_sensor_frame. apply boot_has_reading. }
  assert (Hpush : ({[ "soil_moisture" := v ]} : gmap string pyval)
                    !! "soil_moisture" = Some v)
    by apply lookup_singleton_eq.
  assert (Hnone : ({[ "command" := VStr "STOP" ]} : gmap string pyval)
                    !! "soil_moisture" = None)
    by reflexivity.
  destruct (resolved_after_push py_str_exc
              {[ "soil_moisture" := v ]} {[ "command" := VStr "STOP" ]}
              t2 st1 v Hread Hpush Hnone)
    as [Hres Hfr].
  fold (serve_request (PostSensorsUpdate (VDict {[ "soil_moisture" := v ]}))
          t2 st1) in Hres, Hfr.
  change (snd (serve_request
                 (PostSensorsUpdate (VDict {[ "soil_moisture" := v ]}))
                 t2 st1)) with st2 in Hres, Hfr.
  assert (Hst2 : app.spray_status st2 !! "is_spraying" = Some (VBool true))
    by now rewrite Hfr.
  assert (Hunord : as_number
                     (resolved_moisture {[ "command" := VStr "STOP" ]} st2)
                   = None) by now rewrite Hres.
  assert (Hc : command_field {[ "command" := VStr "STOP" ]} = VStr "STOP")
    by reflexivity.
  subst out. cbn [serve].
  rewrite (control_spray_unordered py_format str_upper py_str_exc
             {[ "command" := VStr "STOP" ]} "STOP" t3 st2
             Hc (or_intror Hstop) Hunord).
  cbn [fst snd app.status app.body]. auto 10.
Qed.

End Interlock.

(** A START that carries a moisture of 55, on the state at boot. *)
Lemma C1_interlock_witness :
  let out := run_control_spray
               (VDict (list_to_map [("command", VStr "start");
                                    ("soil_moisture", VNum (Fin 55))]))
               "2024-01-01T05:00:00" boot in
  within 40 70 (Fin 55) /\
  app.status (fst out) = 200%Z /\
  app.spray_status (snd out) !! "is_spraying" = Some (VBool true).
Proof.
  pose proof (C1_interlock_window mark_format upper_ascii exc_name
                (list_to_map [("command", VStr "start");
                              ("soil_moisture", VNum (Fin 55))])
                "start" "2024-01-01T05:00:00" boot (Fin 55) (Fin 60)
                eq_refl eq_refl eq_refl) as H.
  cbv zeta in *. unfold run_control_spray.
  destruct H as (H1 & _ & H3 & _).
  split; [exact within_window_55|].
  split; [exact (proj2 H1 within_window_55)|exact (H3 within_window_55)].
Defined.

(** The pump is on, the sensor reports null, a STOP follows. *)
Lemma C3_stop_fails_witness :
  let st1 :=
    snd (run_control_spray (VDict {[ "command" := VStr "START" ]})
           "2024-01-01T05:00:00" boot) in
  let st2 :=
    snd (run_update_sensors (VDict {[ "soil_moisture" := VNone ]})
           "2024-01-01T05:01:00" st1) in
  let out :=
    run_control_spray (VDict {[ "command" := VStr "STOP" ]})
      "2024-01-01T05:02:00" st2 in
  app.status (fst out) = 500%Z /\
  app.spray_status (snd out) !! "is_spraying" = Some (VBool true).
Proof.
  pose proof (C3_stop_fails_on_unordered_moisture mark_format upper_ascii
                exc_name read_float "2024-01-01T00:00:00"
                "2024-01-01T05:00:00" "2024-01-01T05:01:00"
                "2024-01-01T05:02:00" VNone eq_refl eq_refl eq_refl) as H.
  cbv zeta in *. destruct H as (_ & _ & H3 & _ & _ & H6).
  split; [exact H3|exact H6].
Defined.
